(** * Toxic comment classifier: text preprocessing and prediction wrapper

    A shallow embedding of [utils/text_preprocessing.py] and
    [models/toxic_classifier.py], with the feature flags of
    [config/config.py] and the word counts of [utils/visualization.py].

    Python strings are modelled as lists of 8-bit characters, read as the
    code points U+0000 to U+00FF; the string methods the sources call
    ([lower], [strip], [split], [join], [re.sub]) are written out on that
    range.  Python floats are modelled as rationals.  Calls into Keras,
    NLTK, pickle and the file system are parameters of the development:
    each returns a [result], since any of them may raise. *)

From Stdlib Require Import List Ascii String ZArith QArith Bool Lia Lqa DecimalString.
From Stdlib Require Import Sorted Permutation.
Import ListNotations.

Close Scope Q_scope.
Open Scope list_scope.

Set Implicit Arguments.

(* ================================================================== *)
(** * Python values, exceptions and strings *)
(* ================================================================== *)

Module Py.

(** A Python [str]. *)
Definition str := list ascii.

(** String literals of the sources. *)
Definition lit (s : string) : str := list_ascii_of_string s.

(** The exceptions (subclasses of [Exception]) the modelled code can meet. *)
Inductive exn : Type :=
| AttributeError
| IndexError
| TypeError
| ValueError
| FileNotFoundError
| LookupError
| OSError
| UnpicklingError.

(** Outcome of a call: a value, or a raised exception. *)
Inductive result (A : Type) : Type :=
| Ok (a : A)
| Raise (e : exn).

Arguments Ok {A} a.
Arguments Raise {A} e.

Definition is_ok {A} (r : result A) : bool :=
  match r with Ok _ => true | Raise _ => false end.

(** The argument values a caller may pass where a text is expected:
    [None], a [bool], an [int], a [str], or a [bytes] object given by its
    bytes.  A [bytes] object is the one among them that is not a [str]
    and still has a [strip] method. *)
Inductive pyval : Type :=
| PyNone
| PyBool (b : bool)
| PyInt (z : Z)
| PyStr (s : str)
| PyBytes (b : list ascii).

(** [isinstance(v, str)] *)
Definition isinstance_str (v : pyval) : bool :=
  match v with PyStr _ => true | _ => false end.

(** [hasattr(v, 'strip')] *)
Definition has_strip (v : pyval) : bool :=
  match v with PyStr _ | PyBytes _ => true | _ => false end.

(** Truth value of an object, as [not v] tests it. *)
Definition truthy (v : pyval) : bool :=
  match v with
  | PyNone => false
  | PyBool b => b
  | PyInt z => negb (Z.eqb z 0)
  | PyStr s => match s with [] => false | _ :: _ => true end
  | PyBytes b => match b with [] => false | _ :: _ => true end
  end.

Definition code (c : ascii) : N := N_of_ascii c.

(** The apostrophe, the double quote and the backslash. *)
Definition apostrophe : ascii := ascii_of_nat 39.
Definition double_quote : ascii := ascii_of_nat 34.
Definition backslash : ascii := ascii_of_nat 92.

(** The quote [repr] puts around a [bytes] literal: an apostrophe, or a
    double quote when the bytes hold an apostrophe and no double quote. *)
Definition bytes_quote (b : list ascii) : ascii :=
  if existsb (Ascii.eqb apostrophe) b && negb (existsb (Ascii.eqb double_quote) b)
  then double_quote else apostrophe.

Definition hex_digit (n : N) : ascii :=
  nth (N.to_nat n) (lit "0123456789abcdef") "0"%char.

(** How [repr] writes one byte inside the quotes. *)
Definition repr_byte (quote c : ascii) : str :=
  let n := code c in
  if Ascii.eqb c quote || Ascii.eqb c backslash then [backslash; c]
  else if (n =? 9)%N then [backslash; "t"%char]
  else if (n =? 10)%N then [backslash; "n"%char]
  else if (n =? 13)%N then [backslash; "r"%char]
  else if ((n <? 32) || (127 <=? n))%N
  then [backslash; "x"%char; hex_digit (n / 16); hex_digit (n mod 16)]
  else [c].

(** [repr(b)] for a [bytes] object, which is also [str(b)]. *)
Definition bytes_repr (b : list ascii) : str :=
  let quote := bytes_quote b in
  "b"%char :: quote :: flat_map (repr_byte quote) b ++ [quote].

(** [str(v)] *)
Definition py_str (v : pyval) : str :=
  match v with
  | PyNone => lit "None"
  | PyBool true => lit "True"
  | PyBool false => lit "False"
  | PyInt z => lit (NilZero.string_of_int (Z.to_int z))
  | PyStr s => s
  | PyBytes b => bytes_repr b
  end.

(** ** Characters *)

(** Whitespace in the sense of [str.isspace], [str.split], [str.strip] and
    the regular-expression class [\s]: TAB..CR, FS..US, SPACE, NEL, NBSP. *)
Definition isspace (c : ascii) : bool :=
  let n := code c in
  ((9 <=? n) && (n <=? 13) || (28 <=? n) && (n <=? 31)
   || (n =? 32) || (n =? 133) || (n =? 160))%N.

(** [c.lower()] on one character: A-Z and the upper-case letters
    U+00C0..U+00DE (the multiplication sign U+00D7 apart) move up by 32. *)
Definition lower_char (c : ascii) : ascii :=
  let n := code c in
  if ((65 <=? n) && (n <=? 90)
      || (192 <=? n) && (n <=? 222) && negb (n =? 215))%N
  then ascii_of_N (n + 32) else c.

(** The class [a-zA-Z]. *)
Definition is_ascii_letter (c : ascii) : bool :=
  let n := code c in
  ((65 <=? n) && (n <=? 90) || (97 <=? n) && (n <=? 122))%N.

(** ** String methods *)

(** [s.lower()] *)
Definition lower (s : str) : str := map lower_char s.

(** [s.lstrip()] *)
Fixpoint lstrip (s : str) : str :=
  match s with
  | [] => []
  | c :: t => if isspace c then lstrip t else s
  end.

(** [s.rstrip()] *)
Fixpoint rstrip (s : str) : str :=
  match s with
  | [] => []
  | c :: t =>
      match rstrip t with
      | [] => if isspace c then [] else [c]
      | r => c :: r
      end
  end.

(** [s.strip()] *)
Definition strip (s : str) : str := rstrip (lstrip s).

(** The whitespace [bytes.strip] removes: TAB..CR and SPACE. *)
Definition bytes_isspace (c : ascii) : bool :=
  let n := code c in ((9 <=? n) && (n <=? 13) || (n =? 32))%N.

(** [b.lstrip()] for [bytes] *)
Fixpoint bytes_lstrip (b : list ascii) : list ascii :=
  match b with
  | [] => []
  | c :: t => if bytes_isspace c then bytes_lstrip t else b
  end.

(** [b.rstrip()] for [bytes] *)
Fixpoint bytes_rstrip (b : list ascii) : list ascii :=
  match b with
  | [] => []
  | c :: t =>
      match bytes_rstrip t with
      | [] => if bytes_isspace c then [] else [c]
      | r => c :: r
      end
  end.

(** [b.strip()] for [bytes] *)
Definition bytes_strip (b : list ascii) : list ascii := bytes_rstrip (bytes_lstrip b).

(** The fields between whitespace characters, empty ones included. *)
Fixpoint fields (s : str) : list str :=
  match s with
  | [] => [[]]
  | c :: t =>
      if isspace c then [] :: fields t
      else match fields t with
           | [] => [[c]]
           | h :: r => (c :: h) :: r
           end
  end.

Definition nonempty (s : str) : bool :=
  match s with [] => false | _ :: _ => true end.

(** [s.split()]: the maximal runs of non-whitespace characters. *)
Definition split (s : str) : list str := filter nonempty (fields s).

(** [sep.join(parts)] *)
Fixpoint join (sep : str) (parts : list str) : str :=
  match parts with
  | [] => []
  | [p] => p
  | p :: rest => p ++ sep ++ join sep rest
  end.

Definition space : str := lit " ".

(** [' '.join(s.split())] *)
Definition collapse_whitespace (s : str) : str := join space (split s).

Fixpoint str_eqb (a b : str) : bool :=
  match a, b with
  | [], [] => true
  | x :: a', y :: b' => Ascii.eqb x y && str_eqb a' b'
  | _, _ => false
  end.

(** [t in l] for a list or set of strings. *)
Definition str_in (t : str) (l : list str) : bool := existsb (str_eqb t) l.

Fixpoint is_prefix (p s : str) : bool :=
  match p, s with
  | [], _ => true
  | x :: p', y :: s' => Ascii.eqb x y && is_prefix p' s'
  | _ :: _, [] => false
  end.

(** [t in s] for strings: substring test. *)
Fixpoint substring_of (t s : str) : bool :=
  is_prefix t s ||
  match s with
  | [] => false
  | _ :: s' => substring_of t s'
  end.

(** ** The two regular expressions of the sources *)

(** What follows the literal [p] at the head of [s], if [s] starts with it. *)
Fixpoint after_prefix (p s : str) : option str :=
  match p with
  | [] => Some s
  | x :: p' =>
      match s with
      | [] => None
      | y :: s' => if Ascii.eqb x y then after_prefix p' s' else None
      end
  end.

(** [\S] matches the next character. *)
Definition next_nonspace (s : str) : bool :=
  match s with
  | [] => false
  | d :: _ => negb (isspace d)
  end.

Definition literal_then_nonspace (p s : str) : bool :=
  match after_prefix p s with
  | Some r => next_nonspace r
  | None => false
  end.

(** Does [http\S+|www\S+|https\S+] match at the head of [s]?  The third
    alternative never decides: where it matches, the first one does. *)
Definition url_at (s : str) : bool :=
  literal_then_nonspace (lit "http") s
  || literal_then_nonspace (lit "www") s
  || literal_then_nonspace (lit "https") s.

(** [re.sub(r'http\S+|www\S+|https\S+', '', s)], scanning left to right.
    A match starts on non-whitespace and its greedy [\S+] runs to the end
    of the current run of non-whitespace, so the scanner is either
    copying ([inside = false]) or dropping the rest of a matched run
    ([inside = true]). *)
Fixpoint sub_urls (inside : bool) (s : str) : str :=
  match s with
  | [] => []
  | c :: t =>
      if isspace c then c :: sub_urls false t
      else if inside then sub_urls true t
      else if url_at s then sub_urls true t
      else c :: sub_urls false t
  end.

Definition remove_url_matches (s : str) : str := sub_urls false s.

(** [re.sub(r'[^a-zA-Z\s]', '', s)] *)
Definition remove_non_letters (s : str) : str :=
  filter (fun c => is_ascii_letter c || isspace c) s.

End Py.

(* ================================================================== *)
(** * utils/text_preprocessing.py *)
(* ================================================================== *)

Module TextPreprocessing.
Import Py.

(** [string.punctuation]: the 32 ASCII punctuation characters. *)
Definition punctuation : str :=
  map ascii_of_nat (seq 33 15 ++ seq 58 7 ++ seq 91 6 ++ seq 123 4).

(** [PorterStemmer()] *)
Inductive Stemmer : Type := PorterStemmer.

(** The attributes of a [TextPreprocessor]. *)
Record TextPreprocessor : Type := mkTextPreprocessor {
  remove_punctuation : bool;
  remove_stopwords : bool;
  lowercase : bool;
  remove_urls : bool;
  remove_special_chars : bool;
  stemming : bool;
  stemmer : option Stemmer;
  stop_words : list str
}.

(** The NLTK entry points the module calls. *)
Record NLTK : Type := mkNLTK {
  (** [word_tokenize(text)] *)
  word_tokenize : str -> result (list str);
  (** [stopwords.words('english')] *)
  stopwords_words_english : result (list str);
  (** [PorterStemmer().stem(token)] *)
  stem : str -> result str
}.

(** [[f(x) for x in l]], stopping at the first exception. *)
Fixpoint map_result {A B} (f : A -> result B) (l : list A) : result (list B) :=
  match l with
  | [] => Ok []
  | x :: l' =>
      match f x with
      | Raise e => Raise e
      | Ok y =>
          match map_result f l' with
          | Raise e => Raise e
          | Ok ys => Ok (y :: ys)
          end
      end
  end.

Section WithNLTK.

Variable nltk : NLTK.

(** [TextPreprocessor.__init__] *)
Definition TextPreprocessor_init
    (remove_punctuation remove_stopwords lowercase remove_urls
     remove_special_chars stemming : bool) : result TextPreprocessor :=
  let stemmer := if stemming then Some PorterStemmer else None in
  match (if remove_stopwords then stopwords_words_english nltk else Ok []) with
  | Raise e => Raise e
  | Ok stop_words =>
      Ok (mkTextPreprocessor remove_punctuation remove_stopwords lowercase
            remove_urls remove_special_chars stemming stemmer stop_words)
  end.

(** The [try: word_tokenize(text) except: text.split()] block. *)
Definition tokenize (text : str) : list str :=
  match word_tokenize nltk text with
  | Ok tokens => tokens
  | Raise _ => split text
  end.

(** [TextPreprocessor.clean_text] *)
Definition clean_text (self : TextPreprocessor) (text : pyval) : str :=
  let text := if isinstance_str text then text else PyStr (py_str text) in
  let text := py_str text in
  let text := if lowercase self then lower text else text in
  let text := if remove_urls self then remove_url_matches text else text in
  let text := if remove_special_chars self then remove_non_letters text else text in
  let text := collapse_whitespace text in
  let tokens := tokenize text in
  let tokens :=
    if remove_stopwords self && match stop_words self with [] => false | _ => true end
    then filter (fun token => negb (str_in (lower token) (stop_words self))) tokens
    else tokens in
  let tokens :=
    if remove_punctuation self
    then filter (fun token => negb (substring_of token punctuation)) tokens
    else tokens in
  let tokens :=
    if stemming self && match stemmer self with Some _ => true | None => false end
    then match map_result (stem nltk) tokens with
         | Ok stemmed => stemmed
         | Raise _ => tokens
         end
    else tokens in
  let cleaned_text := join space tokens in
  strip cleaned_text.

(** The module-level [_default_preprocessor]. *)
Definition _default_preprocessor : TextPreprocessor :=
  mkTextPreprocessor false false true true false false None [].

(** [preprocess_text(text, preprocessor=None)] *)
Definition preprocess_text (text : pyval) (preprocessor : option TextPreprocessor) : str :=
  let preprocessor :=
    match preprocessor with
    | None => _default_preprocessor
    | Some p => p
    end in
  clean_text preprocessor text.

End WithNLTK.

(** [basic_clean(text)] *)
Definition basic_clean (text : pyval) : str :=
  let text := if isinstance_str text then text else PyStr (py_str text) in
  let text := py_str text in
  let text := strip (lower text) in
  let text := remove_url_matches text in
  collapse_whitespace text.

(** An installation without the [punkt] data: [word_tokenize] raises
    [LookupError], which [clean_text] answers with [text.split()]. *)
Definition nltk_without_punkt : NLTK :=
  mkNLTK (fun _ => Raise LookupError) (Raise LookupError) (fun s => Ok s).

End TextPreprocessing.

(* ================================================================== *)
(** * Exceptions and mutable state *)
(* ================================================================== *)

Module StateExn.
Import Py.

(** A computation over a mutable state [S] that returns or raises.  The
    state reached is kept when an exception is raised, as an [except]
    block sees the attributes assigned before the failure. *)
Definition M (S A : Type) : Type := S -> result A * S.

Definition ret {S A} (a : A) : M S A := fun s => (Ok a, s).

Definition raise {S A} (e : exn) : M S A := fun s => (Raise e, s).

Definition bind {S A B} (m : M S A) (k : A -> M S B) : M S B :=
  fun s =>
    match m s with
    | (Ok a, s') => k a s'
    | (Raise e, s') => (Raise e, s')
    end.

(** [try: body except Exception: handler] *)
Definition try_except {S A} (body : M S A) (handler : exn -> M S A) : M S A :=
  fun s =>
    match body s with
    | (Ok a, s') => (Ok a, s')
    | (Raise e, s') => handler e s'
    end.

Definition get {S} : M S S := fun s => (Ok s, s).

Definition modify {S} (f : S -> S) : M S unit := fun s => (Ok tt, f s).

(** A call that touches no state. *)
Definition lift {S A} (r : result A) : M S A := fun s => (r, s).

Declare Scope monad_scope.
Delimit Scope monad_scope with monad.

Notation "x <- m ;; k" := (bind m (fun x => k))
  (at level 61, m at next level, right associativity) : monad_scope.
Notation "m ;;; k" := (bind m (fun _ => k))
  (at level 61, right associativity) : monad_scope.

End StateExn.

(* ================================================================== *)
(** * models/toxic_classifier.py *)
(* ================================================================== *)

Module Classifier.
Import Py StateExn.
Local Open Scope monad_scope.

(** ** Result mappings *)

(** A [dict] from category names to scores, in insertion order. *)
Definition dict : Type := list (str * Q).

(** [d[k] = v]: an existing key keeps its place, a new one goes last. *)
Fixpoint dict_set (d : dict) (k : str) (v : Q) : dict :=
  match d with
  | [] => [(k, v)]
  | (k', v') :: d' =>
      if str_eqb k' k then (k', v) :: d' else (k', v') :: dict_set d' k v
  end.

Definition keys (d : dict) : list str := map fst d.
Definition values (d : dict) : list Q := map snd d.

(** [{category: v for category in categories}] *)
Definition dict_const (categories : list str) (v : Q) : dict :=
  fold_left (fun d category => dict_set d category v) categories [].

(** The literal list assigned to [self.categories]. *)
Definition CATEGORIES : list str :=
  [lit "toxic"; lit "severe_toxic"; lit "obscene"; lit "threat";
   lit "insult"; lit "identity_hate"].

(** A score is a probability. *)
Definition unit_interval (q : Q) : Prop := (0 <= q)%Q /\ (q <= 1)%Q.

(** ** Padding *)

(** Modelled from the spec: Keras' [pad_sequences] is a library function
    outside the sources; [preprocess_text] passes it only [maxlen], so the
    library defaults apply, which are the spec's "pre" padding with id 0
    and "pre" truncation.  Following the library, a row of [maxlen] zeros
    receives the last [maxlen] ids of the sequence in its last places. *)
Definition pad_sequence (maxlen : nat) (s : list Z) : list Z :=
  let trunc := skipn (List.length s - maxlen) s in
  let x := repeat 0%Z maxlen in
  firstn (maxlen - List.length trunc) x ++ trunc.

Definition pad_sequences (sequences : list (list Z)) (maxlen : nat) : list (list Z) :=
  map (pad_sequence maxlen) sequences.

(** ** Paths *)

(** [os.path.join(a, b)] on POSIX paths. *)
Definition path_join (a b : str) : str :=
  match b with
  | "/"%char :: _ => b
  | _ =>
      match rev a with
      | [] => b
      | "/"%char :: _ => a ++ b
      | _ => a ++ lit "/" ++ b
      end
  end.

(** ** NumPy *)

(** An item read back from [np.array([text])]: NumPy's fixed-width
    unicode cells do not keep trailing NUL characters. *)
Fixpoint numpy_unicode_item (s : str) : str :=
  match s with
  | [] => []
  | c :: t =>
      match numpy_unicode_item t with
      | [] => if Ascii.eqb c zero then [] else [c]
      | r => c :: r
      end
  end.

Section WithRuntime.

(** Keras models and tokenizers are opaque objects. *)
Variables Model Tokenizer : Type.

(** The library and operating-system calls of the module. *)
Record Runtime : Type := mkRuntime {
  (** [os.path.exists(path)] *)
  path_exists : str -> bool;
  (** [open(path, mode)] followed by reading the whole file *)
  read_file : str -> result str;
  (** [model_from_json(text)]: a model, [None], or an exception *)
  model_from_json : str -> result (option Model);
  (** [model.load_weights(path)], giving the model with its weights set *)
  load_weights : Model -> str -> result Model;
  (** [model.compile(loss=..., optimizer=..., metrics=...)] *)
  compile : Model -> result Model;
  (** the compiled four-layer [keras.Sequential] of [_create_dummy_model]
      for inputs of the given width; building it reads no input *)
  dummy_network : nat -> Model;
  (** [pickle.load(handle)]: any object, [None] included, or an exception *)
  pickle_load : str -> result (option Tokenizer);
  (** [Tokenizer(num_words=..., oov_token="<OOV>")] fitted on the four
      sample sentences of [_create_dummy_tokenizer] *)
  sample_tokenizer : Z -> Tokenizer;
  (** [tokenizer.texts_to_sequences(texts)] *)
  texts_to_sequences : Tokenizer -> list str -> result (list (list Z));
  (** [model.predict(x, verbose=0)]: one row of outputs per input row *)
  model_predict : Model -> list (list Z) -> result (list (list Q));
  (** [model.count_params()] *)
  count_params : Model -> result Z;
  (** [len(model.layers)] *)
  layers_len : Model -> result Z;
  (** the 53 random bits behind the k-th call of [random.random()] *)
  random_bits : nat -> N
}.

(** The attributes of a [ToxicClassifier]. *)
Record ToxicClassifier : Type := mkToxicClassifier {
  model_path : str;
  model : option Model;
  tokenizer : option Tokenizer;
  max_features : Z;
  max_len : nat;
  categories : list str
}.

Definition set_model (m : option Model) (self : ToxicClassifier) : ToxicClassifier :=
  mkToxicClassifier (model_path self) m (tokenizer self)
    (max_features self) (max_len self) (categories self).

Definition set_tokenizer (t : option Tokenizer) (self : ToxicClassifier) : ToxicClassifier :=
  mkToxicClassifier (model_path self) (model self) t
    (max_features self) (max_len self) (categories self).

(** What lives outside the classifier object: the position in the
    random stream and the number of forward passes run so far. *)
Record World : Type := mkWorld {
  rng_pos : nat;
  forward_passes : nat
}.

Variable rt : Runtime.

(** *** Loading *)

(** [self.model.f(...)] for a method that updates the model. *)
Definition call_on_model (f : Model -> result Model) : M ToxicClassifier unit :=
  self <- get ;;
  match model self with
  | None => raise AttributeError
  | Some m => m' <- lift (f m) ;; modify (set_model (Some m'))
  end.

(** [ToxicClassifier._create_dummy_model] *)
Definition _create_dummy_model : M ToxicClassifier unit :=
  self <- get ;;
  modify (set_model (Some (dummy_network rt (max_len self)))).

(** The [try] block of [_load_model]. *)
Definition _load_model_body : M ToxicClassifier unit :=
  self <- get ;;
  let model_json_path := path_join (model_path self) (lit "model.json") in
  let weights_path := path_join (model_path self) (lit "weights.h5") in
  (if negb (path_exists rt model_json_path)
   then raise FileNotFoundError else ret tt) ;;;
  (if negb (path_exists rt weights_path)
   then raise FileNotFoundError else ret tt) ;;;
  loaded_model_json <- lift (read_file rt model_json_path) ;;
  loaded <- lift (model_from_json rt loaded_model_json) ;;
  modify (set_model loaded) ;;;
  call_on_model (fun m => load_weights rt m weights_path) ;;;
  call_on_model (compile rt).

(** [ToxicClassifier._load_model] *)
Definition _load_model : M ToxicClassifier unit :=
  try_except _load_model_body (fun _ => _create_dummy_model).

(** [ToxicClassifier._create_dummy_tokenizer] *)
Definition _create_dummy_tokenizer : M ToxicClassifier unit :=
  self <- get ;;
  modify (set_tokenizer (Some (sample_tokenizer rt (max_features self)))).

(** The [try] block of [_load_tokenizer]. *)
Definition _load_tokenizer_body : M ToxicClassifier unit :=
  self <- get ;;
  let tokenizer_path := path_join (model_path self) (lit "tokenizer.pickle") in
  if path_exists rt tokenizer_path
  then
    handle <- lift (read_file rt tokenizer_path) ;;
    loaded <- lift (pickle_load rt handle) ;;
    modify (set_tokenizer loaded)
  else _create_dummy_tokenizer.

(** [ToxicClassifier._load_tokenizer] *)
Definition _load_tokenizer : M ToxicClassifier unit :=
  try_except _load_tokenizer_body (fun _ => _create_dummy_tokenizer).

(** The attribute assignments that open [__init__]. *)
Definition fresh (model_path : str) : ToxicClassifier :=
  mkToxicClassifier model_path None None 20000 100 CATEGORIES.

(** [ToxicClassifier.__init__]: the object built, or the exception that
    escapes the constructor. *)
Definition __init__ (model_path : str) : result ToxicClassifier :=
  match (_load_model ;;; _load_tokenizer) (fresh model_path) with
  | (Ok _, self) => Ok self
  | (Raise e, _) => Raise e
  end.

(** *** Encoding *)

(** [ToxicClassifier.preprocess_text].  It reads [self] and changes
    nothing. *)
Definition preprocess_text (self : ToxicClassifier) (text : pyval)
  : result (list (list Z)) :=
  let text := if isinstance_str text then text else PyStr (py_str text) in
  let text := strip (lower (py_str text)) in
  let text_array := [numpy_unicode_item text] in
  match tokenizer self with
  | None => Raise AttributeError
  | Some t =>
      match texts_to_sequences rt t text_array with
      | Raise e => Raise e
      | Ok list_tokenized_text =>
          Ok (pad_sequences list_tokenized_text (max_len self))
      end
  end.

(** *** Prediction *)

(** [random.random()]: 53 random bits scaled into [0, 1). *)
Definition random_random : M World Q :=
  fun w =>
    (Ok (Qmake (Z.of_N (N.modulo (random_bits rt (rng_pos w)) (2 ^ 53)%N))
               (2 ^ 53)%positive),
     mkWorld (S (rng_pos w)) (forward_passes w)).

(** [random.uniform(a, b)] *)
Definition random_uniform (a b : Q) : M World Q :=
  r <- random_random ;; ret (a + (b - a) * r)%Q.

(** [{category: random.uniform(0.1, 0.9) for category in categories}] *)
Fixpoint dict_random (categories : list str) (d : dict) : M World dict :=
  match categories with
  | [] => ret d
  | category :: rest =>
      v <- random_uniform 0.1%Q 0.9%Q ;;
      dict_random rest (dict_set d category v)
  end.

(** [self.model.predict(x, verbose=0)] *)
Definition forward_pass (m : Model) (x : list (list Z)) : M World (list (list Q)) :=
  fun w => (model_predict rt m x, mkWorld (rng_pos w) (S (forward_passes w))).

(** [float(predictions[0][i])] *)
Definition score_at (predictions : list (list Q)) (i : nat) : result Q :=
  match nth_error predictions 0 with
  | None => Raise IndexError
  | Some row =>
      match nth_error row i with
      | None => Raise IndexError
      | Some v => Ok v
      end
  end.

(** The loop [for i, category in enumerate(categories): result[category] = ...] *)
Fixpoint fill_result (predictions : list (list Q)) (i : nat)
    (categories : list str) (result : dict) : Py.result dict :=
  match categories with
  | [] => Ok result
  | category :: rest =>
      match score_at predictions i with
      | Raise e => Raise e
      | Ok v => fill_result predictions (S i) rest (dict_set result category v)
      end
  end.

(** The test [not text or not text.strip()]; a [str] and a [bytes]
    object have [strip], the other values do not. *)
Definition is_blank (text : pyval) : result bool :=
  if negb (truthy text) then Ok true
  else match text with
       | PyStr s => Ok (negb (truthy (PyStr (strip s))))
       | PyBytes b => Ok (negb (truthy (PyBytes (bytes_strip b))))
       | _ => Raise AttributeError
       end.

(** The [try] block of [predict]. *)
Definition predict_body (self : ToxicClassifier) (text : pyval) : M World dict :=
  processed_text <- lift (preprocess_text self text) ;;
  match model self with
  | None => dict_random (categories self) []
  | Some m =>
      predictions <- forward_pass m processed_text ;;
      lift (fill_result predictions 0 (categories self) [])
  end.

(** [ToxicClassifier.predict] *)
Definition predict (self : ToxicClassifier) (text : pyval) : M World dict :=
  blank <- lift (is_blank text) ;;
  if (blank : bool) then ret (dict_const (categories self) 0%Q)
  else try_except (predict_body self text)
         (fun _ => ret (dict_const (categories self) 0.1%Q)).

(** The loop of [batch_predict], with the list [results] built so far. *)
Fixpoint batch_loop (self : ToxicClassifier) (texts : list pyval)
    (results : list dict) : M World (list dict) :=
  match texts with
  | [] => ret results
  | text :: rest =>
      result <- predict self text ;;
      batch_loop self rest (results ++ [result])
  end.

(** [ToxicClassifier.batch_predict] *)
Definition batch_predict (self : ToxicClassifier) (texts : list pyval)
  : M World (list dict) :=
  batch_loop self texts [].

(** *** Introspection *)

(** The mapping built by [get_model_info]; the two last entries are
    present only when they could be computed. *)
Record ModelInfo : Type := mkModelInfo {
  info_categories : list str;
  info_max_features : Z;
  info_max_length : nat;
  model_loaded : bool;
  tokenizer_loaded : bool;
  model_params : option Z;
  model_layers : option Z
}.

(** [ToxicClassifier.get_model_info] *)
Definition get_model_info (self : ToxicClassifier) : ModelInfo :=
  let is_some {A} (o : option A) := match o with Some _ => true | None => false end in
  let info params layers :=
    mkModelInfo (categories self) (max_features self) (max_len self)
      (is_some (model self)) (is_some (tokenizer self)) params layers in
  match model self with
  | None => info None None
  | Some m =>
      match count_params rt m with
      | Raise _ => info None None
      | Ok params =>
          match layers_len rt m with
          | Raise _ => info (Some params) None
          | Ok layers => info (Some params) (Some layers)
          end
      end
  end.

End WithRuntime.

End Classifier.

(* ================================================================== *)
(** * A small concrete installation *)
(* ================================================================== *)

(** A runtime small enough to evaluate: files are an association list,
    models and tokenizers are tags, and the network answers with fixed
    rows.  It serves to run the definitions above on concrete inputs. *)
Module Demo.
Import Py Classifier.

Inductive Net : Type :=
| Trained      (* loaded from model.json and weights.h5 *)
| Untrained    (* the network of _create_dummy_model *)
| Faulty.      (* a network whose forward pass raises *)

Inductive Vocab : Type :=
| Fitted       (* unpickled from tokenizer.pickle *)
| Sample.      (* the tokenizer of _create_dummy_tokenizer *)

Definition files : Type := list (str * str).

Fixpoint lookup (fs : files) (path : str) : option str :=
  match fs with
  | [] => None
  | (p, content) :: fs' => if str_eqb p path then Some content else lookup fs' path
  end.

(** One id per word: its length. *)
Definition word_lengths (text : str) : list Z :=
  map (fun w => Z.of_nat (List.length w)) (split text).

Definition runtime (fs : files) : Runtime Net Vocab :=
  mkRuntime
    (fun path => match lookup fs path with Some _ => true | None => false end)
    (fun path => match lookup fs path with
                 | Some content => Ok content
                 | None => Raise FileNotFoundError
                 end)
    (fun text => if str_eqb text (lit "null") then Ok None
                 else if str_eqb text (lit "faulty") then Ok (Some Faulty)
                 else Ok (Some Trained))
    (fun m _ => Ok m)
    (fun m => Ok m)
    (fun _ => Untrained)
    (* "N." is the protocol-0 pickle of None *)
    (fun handle => if str_eqb handle (lit "N.") then Ok None
                   else if str_eqb handle [] then Raise UnpicklingError
                   else Ok (Some Fitted))
    (fun _ => Sample)
    (fun _ texts => Ok (map word_lengths texts))
    (fun m x => match m with
                | Trained => Ok (map (fun _ => repeat 0.75%Q 6) x)
                | Untrained => Ok (map (fun _ => repeat 0.5%Q 6) x)
                | Faulty => Raise ValueError
                end)
    (fun _ => Ok 8742%Z)
    (fun _ => Ok 4%Z)
    (fun k => N.of_nat k).

(** All three artifacts in place. *)
Definition full_resources : files :=
  [(lit "resources/model.json", lit "{}");
   (lit "resources/weights.h5", lit "weights");
   (lit "resources/tokenizer.pickle", lit "tokenizer")].

(** No artifact at all. *)
Definition no_resources : files := [].

(** A tokenizer file that holds a pickled [None]. *)
Definition none_pickled : files :=
  [(lit "resources/model.json", lit "{}");
   (lit "resources/weights.h5", lit "weights");
   (lit "resources/tokenizer.pickle", lit "N.")].

Definition start : World := mkWorld 0 0.

(** The object the constructor builds when no artifact is found. *)
Definition classifier : ToxicClassifier Net Vocab :=
  mkToxicClassifier (lit "resources/") (Some Untrained) (Some Sample)
    20000 100 CATEGORIES.

(** The double quote character. *)
Definition dquote : ascii := ascii_of_nat 34.

(** A word tokenizer that renders quotation marks in the Penn Treebank
    way, as NLTK's does: a double quote inside a word becomes the token
    [''], and [''] after a space becomes the opening-quote token [``].
    Only the two texts below are tabulated; any other text is split on
    whitespace. *)
Definition treebank_quotes : TextPreprocessing.NLTK :=
  TextPreprocessing.mkNLTK
    (fun text =>
       if str_eqb text (lit "a" ++ [dquote] ++ lit "b")
       then Ok [lit "a"; lit "''"; lit "b"]
       else if str_eqb text (lit "a '' b")
       then Ok [lit "a"; lit "``"; lit "b"]
       else Ok (split text))
    (Ok [])
    (fun s => Ok s).

End Demo.

(* ================================================================== *)
(** * Vocabulary of the statements *)
(* ================================================================== *)

Module Spec.
Import Py Classifier.

(** ** Strings *)

Definition spaceless (s : str) : Prop := Forall (fun c => isspace c = false) s.

Definition lowered (s : str) : Prop := Forall (fun c => lower_char c = c) s.

(** What [split] returns: non-empty strings without whitespace. *)
Definition token (s : str) : Prop := spaceless s /\ nonempty s = true.

(** The tokens a cleaned text is made of: no upper case and no URL
    match is left in them. *)
Definition clean_token (t : str) : Prop :=
  token t /\ lowered t /\ sub_urls false t = t.

(** ** Classifier objects *)

Section WithRuntime.

Variables Model Tokenizer : Type.
Variable rt : Runtime Model Tokenizer.

(** A classifier whose constant attributes are as [__init__] assigns
    them; the model and the tokenizer are any objects, or [None]. *)
Definition instance (path : str) (m : option Model) (t : option Tokenizer)
  : ToxicClassifier Model Tokenizer :=
  mkToxicClassifier path m t 20000 100 CATEGORIES.

(** The six output units of the network are sigmoid activated. *)
Definition sigmoid_outputs (m : Model) : Prop :=
  forall x rows, model_predict rt m x = Ok rows ->
                 Forall (Forall unit_interval) rows.

(** The text [predict] hands to the tokenizer. *)
Definition encoder_input (text : pyval) : list str :=
  [numpy_unicode_item (strip (lower (py_str text)))].

(** The three artifact paths under [path]. *)
Definition model_json_path (path : str) : str := path_join path (lit "model.json").
Definition weights_path (path : str) : str := path_join path (lit "weights.h5").
Definition tokenizer_path (path : str) : str := path_join path (lit "tokenizer.pickle").

(** The architecture or the weights are absent, or a step of loading
    them raises (reading, parsing, setting the weights, compiling). *)
Definition model_load_fails (path : str) : Prop :=
  path_exists rt (model_json_path path) = false
  \/ path_exists rt (weights_path path) = false
  \/ (exists e, read_file rt (model_json_path path) = Raise e)
  \/ (exists text, read_file rt (model_json_path path) = Ok text /\
        ((exists e, model_from_json rt text = Raise e)
         \/ model_from_json rt text = Ok None
         \/ (exists m0, model_from_json rt text = Ok (Some m0) /\
               ((exists e, load_weights rt m0 (weights_path path) = Raise e)
                \/ (exists m1 e, load_weights rt m0 (weights_path path) = Ok m1 /\
                                 compile rt m1 = Raise e))))).

(** The tokenizer file is absent, or reading or unpickling it raises. *)
Definition tokenizer_load_fails (path : str) : Prop :=
  path_exists rt (tokenizer_path path) = false
  \/ (exists e, read_file rt (tokenizer_path path) = Raise e)
  \/ (exists handle e, read_file rt (tokenizer_path path) = Ok handle /\
                       pickle_load rt handle = Raise e).

(** The tokenizer file is there and unpickles, without error, to [None]. *)
Definition tokenizer_pickle_is_None (path : str) : Prop :=
  path_exists rt (tokenizer_path path) = true
  /\ exists handle, read_file rt (tokenizer_path path) = Ok handle /\
                    pickle_load rt handle = Ok None.

End WithRuntime.

(** ** Inputs and results of [predict] *)

(** An input [predict] answers without looking at it further: a falsy
    object ([None], [False], [0], the empty string) or a string of
    whitespace. *)
Definition blank_input (text : pyval) : Prop :=
  truthy text = false \/ exists s, text = PyStr s /\ strip s = [].

(** The single-prediction contract: the six categories in order, each
    with a probability. *)
Definition well_formed (d : dict) : Prop :=
  keys d = CATEGORIES /\ Forall unit_interval (values d).

(** [{category: v for category in CATEGORIES}] written out. *)
Definition uniform (v : Q) : dict := map (fun category => (category, v)) CATEGORIES.

End Spec.

(* ================================================================== *)
(** * utils/text_preprocessing.py: features and spam patterns *)
(* ================================================================== *)

Module TextFeatures.
Import Py TextPreprocessing.

(** [c.isupper()] for one character: A-Z and U+00C0..U+00DE without the
    multiplication sign. *)
Definition isupper_char (c : ascii) : bool :=
  let n := code c in
  ((65 <=? n) && (n <=? 90)
   || (192 <=? n) && (n <=? 222) && negb (n =? 215))%N.

(** [c.islower()] for one character: a-z, the two ordinal indicators,
    the micro sign and U+00DF..U+00FF without the division sign. *)
Definition islower_char (c : ascii) : bool :=
  let n := code c in
  ((97 <=? n) && (n <=? 122)
   || (n =? 170) || (n =? 181) || (n =? 186)
   || (223 <=? n) && (n <=? 255) && negb (n =? 247))%N.

(** [c.isdigit()]: 0-9 and the superscripts one, two and three. *)
Definition isdigit_char (c : ascii) : bool :=
  let n := code c in
  ((48 <=? n) && (n <=? 57) || (n =? 178) || (n =? 179) || (n =? 185))%N.

(** [word.isupper()]: no lower-case character and at least one
    upper-case one. *)
Definition isupper (word : str) : bool :=
  forallb (fun c => negb (islower_char c)) word && existsb isupper_char word.

(** [sum(1 for x in xs if p(x))] *)
Definition count_if {A} (p : A -> bool) (xs : list A) : nat :=
  List.length (filter p xs).

(** [c in string.punctuation] for a character. *)
Definition is_punctuation (c : ascii) : bool := existsb (Ascii.eqb c) punctuation.

(** The dictionary returned by [extract_features]. *)
Record Features : Type := mkFeatures {
  length_ : nat;
  word_count : nat;
  char_count : nat;
  uppercase_ratio : Q;
  punctuation_count : nat;
  digit_count : nat;
  exclamation_count : nat;
  question_count : nat;
  caps_words : nat
}.

(** [a / b] for two counts; the caller tests [b] first. *)
Definition ratio (a b : nat) : Q := Qmake (Z.of_nat a) (Pos.of_nat b).

(** [extract_features(text)] *)
Definition extract_features (text : pyval) : Features :=
  let text := if isinstance_str text then text else PyStr (py_str text) in
  let text := py_str text in
  mkFeatures
    (List.length text)
    (List.length (split text))
    (List.length text)
    (if nonempty text then ratio (count_if isupper_char text) (List.length text)
     else 0%Q)
    (count_if is_punctuation text)
    (count_if isdigit_char text)
    (count_if (Ascii.eqb "!"%char) text)
    (count_if (Ascii.eqb "?"%char) text)
    (count_if isupper (split text)).

(** The class [\d] on the modelled range: 0-9. *)
Definition is_decimal (c : ascii) : bool :=
  let n := code c in ((48 <=? n) && (n <=? 57))%N.

(** [re.search(r'\$\d+', s)] *)
Fixpoint search_dollar_digits (s : str) : bool :=
  match s with
  | [] => false
  | c :: t =>
      (Ascii.eqb c "$"%char
       && match t with d :: _ => is_decimal d | [] => false end)
      || search_dollar_digits t
  end.

(** [re.search] for an alternation of literals. *)
Definition search_any (phrases : list str) (s : str) : bool :=
  existsb (fun phrase => substring_of phrase s) phrases.

(** The three entries of [spam_patterns]. *)
Definition spam_pattern_1 (s : str) : bool :=
  search_any [lit "buy now"; lit "click here"; lit "free money";
              lit "urgent"; lit "winner"] s.

Definition spam_pattern_2 (s : str) : bool :=
  search_dollar_digits s
  || search_any [lit "money back"; lit "guarantee"; lit "limited time"] s.

Definition spam_pattern_3 (s : str) : bool :=
  search_any [lit "call now"; lit "act now"; lit "don't wait"; lit "hurry"] s.

Definition spam_patterns : list (str -> bool) :=
  [spam_pattern_1; spam_pattern_2; spam_pattern_3].

(** [is_spam_pattern(text)] *)
Definition is_spam_pattern (text : pyval) : bool :=
  let text := if isinstance_str text then text else PyStr (py_str text) in
  let text_lower := lower (py_str text) in
  existsb (fun pattern => pattern text_lower) spam_patterns.

End TextFeatures.

(* ================================================================== *)
(** * config/config.py *)
(* ================================================================== *)

Module Config.
Import Py.

(** [TOXICITY_CATEGORIES] *)
Definition TOXICITY_CATEGORIES : list str :=
  [lit "toxic"; lit "severe_toxic"; lit "obscene"; lit "threat";
   lit "insult"; lit "identity_hate"].

(** The entries of [MODEL_CONFIG] the classifier has counterparts of. *)
Definition MODEL_CONFIG_model_path : str := lit "resources/".
Definition MODEL_CONFIG_max_features : Z := 20000.
Definition MODEL_CONFIG_max_length : nat := 100.

(** [FEATURE_FLAGS] *)
Definition FEATURE_FLAGS : list (str * bool) :=
  [(lit "enable_examples", true);
   (lit "enable_statistics", true);
   (lit "enable_export", true);
   (lit "enable_batch_processing", false);
   (lit "enable_api_mode", false);
   (lit "enable_model_comparison", false)].

(** [d.get(key, default)] *)
Fixpoint dict_get {V} (d : list (str * V)) (key : str) (default : V) : V :=
  match d with
  | [] => default
  | (k, v) :: d' => if str_eqb k key then v else dict_get d' key default
  end.

(** [is_feature_enabled(feature_name)] *)
Definition is_feature_enabled (feature_name : str) : bool :=
  dict_get FEATURE_FLAGS feature_name false.

End Config.

(* ================================================================== *)
(** * utils/visualization.py: word frequencies *)
(* ================================================================== *)

Module Visualization.
Import Py.

(** The argument of [word.strip('...')]: the characters
    . , ! ? double quote ; : ( ) [ ] { and }. *)
Definition stripped_chars : str :=
  lit ".,!?" ++ [ascii_of_nat 34] ++ lit ";:()[]{}".

Definition char_in (chars : str) (c : ascii) : bool := existsb (Ascii.eqb c) chars.

(** [s.lstrip(chars)] *)
Fixpoint lstrip_chars (chars s : str) : str :=
  match s with
  | [] => []
  | c :: t => if char_in chars c then lstrip_chars chars t else s
  end.

(** [s.rstrip(chars)] *)
Fixpoint rstrip_chars (chars s : str) : str :=
  match s with
  | [] => []
  | c :: t =>
      match rstrip_chars chars t with
      | [] => if char_in chars c then [] else [c]
      | r => c :: r
      end
  end.

(** [s.strip(chars)] *)
Definition strip_chars (chars s : str) : str :=
  rstrip_chars chars (lstrip_chars chars s).

(** A [dict] from words to counts, in insertion order. *)
Definition freq : Type := list (str * nat).

(** [d.get(k, default)] *)
Fixpoint freq_get (d : freq) (k : str) (default : nat) : nat :=
  match d with
  | [] => default
  | (k', v) :: d' => if str_eqb k' k then v else freq_get d' k default
  end.

(** [d[k] = v] *)
Fixpoint freq_set (d : freq) (k : str) (v : nat) : freq :=
  match d with
  | [] => [(k, v)]
  | (k', v') :: d' =>
      if str_eqb k' k then (k', v) :: d' else (k', v') :: freq_set d' k v
  end.

(** The body of the loop over [words]. *)
Definition count_word (word_freq : freq) (word : str) : freq :=
  let word := strip_chars stripped_chars word in
  if Nat.ltb 2 (List.length word)
  then freq_set word_freq word (freq_get word_freq word 0 + 1)
  else word_freq.

(** Where a stable sort by decreasing count puts [x] among the sorted
    items that came after it: before the first one whose count is not
    greater. *)
Fixpoint insert_by_count (x : str * nat) (l : list (str * nat)) : list (str * nat) :=
  match l with
  | [] => [x]
  | y :: l' =>
      if Nat.ltb (snd x) (snd y) then y :: insert_by_count x l'
      else x :: y :: l'
  end.

(** [sorted(items, key=lambda x: x[1], reverse=True)] *)
Definition sorted_by_count (items : list (str * nat)) : list (str * nat) :=
  fold_right insert_by_count [] items.

(** [l[:k]] for an integer [k], negative ones counting from the end. *)
Definition slice_to {A} (l : list A) (k : Z) : list A :=
  if (0 <=? k)%Z then firstn (Z.to_nat k) l
  else firstn (List.length l - Z.to_nat (- k)) l.

(** [dict(items)] *)
Definition dict_of_items (items : list (str * nat)) : freq :=
  fold_left (fun d kv => freq_set d (fst kv) (snd kv)) items [].

(** [create_word_cloud_data(text, max_words)] *)
Definition create_word_cloud_data (text : pyval) (max_words : Z) : freq :=
  let text := if isinstance_str text then text else PyStr (py_str text) in
  let words := split (lower (py_str text)) in
  let word_freq := fold_left count_word words [] in
  let sorted_words := sorted_by_count word_freq in
  dict_of_items (slice_to sorted_words max_words).

(** How often [w] occurs in a list of words. *)
Definition occurrences (w : str) (l : list str) : nat :=
  List.length (filter (str_eqb w) l).

(** Counts in decreasing order. *)
Definition decreasing (items : list (str * nat)) : Prop :=
  forall i j a b, i < j -> nth_error items i = Some a -> nth_error items j = Some b ->
                  snd b <= snd a.

(** The words the loop counts: stripped, and longer than two. *)
Definition counted_words (text : str) : list str :=
  filter (fun w => Nat.ltb 2 (List.length w))
    (map (strip_chars stripped_chars) (split (lower text))).

End Visualization.

(* ================================================================== *)
(** * Callers of the classifier *)
(* ================================================================== *)

Module Legacy.
Import Py StateExn Classifier.
Local Open Scope monad_scope.

Section WithRuntime.

Variables Model Tokenizer : Type.
Variable rt : Runtime Model Tokenizer.

(** [f"{score:.3f}"] *)
Variable format_3f : Q -> str.

(** The loop over [predictions_dict.items()]. *)
Fixpoint collect (items : list (str * Q)) (predictions_list : list str)
    (scores_list : list Q) : list str * list Q :=
  match items with
  | [] => (predictions_list, scores_list)
  | (category, score) :: rest =>
      collect rest
        (predictions_list ++ [category ++ lit ": " ++ format_3f score])
        (scores_list ++ [score])
  end.

(** The module-level [predict(text)] kept for backward compatibility:
    it builds a classifier from the default path on every call. *)
Definition predict (text : pyval) : M World (list str * list Q * list str) :=
  match __init__ rt (lit "resources/") with
  | Raise e => raise e
  | Ok classifier =>
      predictions_dict <- Classifier.predict rt classifier text ;;
      let categories_list := keys predictions_dict in
      let (predictions_list, scores_list) := collect predictions_dict [] [] in
      ret (predictions_list, scores_list, categories_list)
  end.

End WithRuntime.
End Legacy.

(* ================================================================== *)
(** * A network with too few outputs *)
(* ================================================================== *)

(** A runtime whose network has three output units instead of six; the
    rest is as simple as can be. *)
Module Narrow.
Import Py Classifier.

Definition runtime : Runtime unit unit :=
  mkRuntime
    (fun _ => false)
    (fun _ => Raise FileNotFoundError)
    (fun _ => Raise ValueError)
    (fun m _ => Ok m)
    (fun m => Ok m)
    (fun _ => tt)
    (fun _ => Raise UnpicklingError)
    (fun _ => tt)
    (fun _ texts => Ok (map (fun _ => [1%Z]) texts))
    (fun _ x => Ok (map (fun _ => [0.5%Q; 0.5%Q; 0.5%Q]) x))
    (fun _ => Ok 3%Z)
    (fun _ => Ok 1%Z)
    (fun _ => 0%N).

End Narrow.

(** The installation with all three artifacts, but with a loaded
    network whose output units are linear: it answers 2 on each of them.
    The fallback network keeps its sigmoid outputs. *)
Module Linear.
Import Py Classifier.

Definition runtime : Runtime Demo.Net Demo.Vocab :=
  let installed := Demo.runtime Demo.full_resources in
  mkRuntime
    (path_exists installed)
    (read_file installed)
    (model_from_json installed)
    (load_weights installed)
    (compile installed)
    (dummy_network installed)
    (pickle_load installed)
    (sample_tokenizer installed)
    (texts_to_sequences installed)
    (fun m x => match m with
                | Demo.Trained => Ok (map (fun _ => repeat 2%Q 6) x)
                | _ => model_predict installed m x
                end)
    (count_params installed)
    (layers_len installed)
    (random_bits installed).

End Linear.

(* ================================================================== *)
(** * Vocabulary of the further statements *)
(* ================================================================== *)

Module CleanSpec.
Import Py TextPreprocessing.

(** The text [clean_text] hands to the tokenizer. *)
Definition normalised (self : TextPreprocessor) (text : str) : str :=
  let text := if lowercase self then lower text else text in
  let text := if remove_urls self then remove_url_matches text else text in
  let text := if remove_special_chars self then remove_non_letters text else text in
  collapse_whitespace text.

(** The tokens [clean_text] keeps. *)
Definition kept (self : TextPreprocessor) (token : str) : bool :=
  (if remove_stopwords self && match stop_words self with [] => false | _ => true end
   then negb (str_in (lower token) (stop_words self)) else true)
  && (if remove_punctuation self then negb (substring_of token punctuation) else true).

(** The same preprocessor with stemming switched off. *)
Definition without_stemming (self : TextPreprocessor) : TextPreprocessor :=
  mkTextPreprocessor (remove_punctuation self) (remove_stopwords self)
    (lowercase self) (remove_urls self) (remove_special_chars self)
    false (stemmer self) (stop_words self).

(** The word tokenizer returns the whitespace-separated words, or fails. *)
Definition words_only (nltk : NLTK) : Prop :=
  forall text, word_tokenize nltk text = Ok (split text)
               \/ exists e, word_tokenize nltk text = Raise e.

(** No leading and no trailing whitespace. *)
Definition trimmed (s : str) : Prop := strip s = s.

(** A token of a text that was lower-cased when [lc] is set and freed of
    URL matches when [ru] is set. *)
Definition flag_token (lc ru : bool) (t : str) : Prop :=
  (Forall (fun c => isspace c = false) t /\ nonempty t = true)
  /\ (lc = true -> Forall (fun c => lower_char c = c) t)
  /\ (ru = true -> sub_urls false t = t).

(** An installation whose tokenizer data is missing and whose stemmer
    raises on every word. *)
Definition nltk_broken_stemmer : NLTK :=
  mkNLTK (fun _ => Raise LookupError) (Ok []) (fun _ => Raise ValueError).

(** The tokens that reach the stemmer. *)
Definition filtered_tokens (nltk : NLTK) (self : TextPreprocessor) (text : str)
  : list str :=
  filter (kept self) (tokenize nltk (normalised self text)).

End CleanSpec.

(* ================================================================== *)
(** * Facts about the string operations *)
(* ================================================================== *)

Unset Implicit Arguments.

Module PyFacts.
Import Py Spec.

Lemma isspace_lower_char (c : ascii) : isspace (lower_char c) = isspace c.
Proof.
  destruct c as [b0 b1 b2 b3 b4 b5 b6 b7];
    destruct b0, b1, b2, b3, b4, b5, b6, b7; reflexivity.
Qed.

Lemma lower_char_idempotent (c : ascii) : lower_char (lower_char c) = lower_char c.
Proof.
  destruct c as [b0 b1 b2 b3 b4 b5 b6 b7];
    destruct b0, b1, b2, b3, b4, b5, b6, b7; reflexivity.
Qed.

Lemma fields_not_nil (s : str) : fields s <> [].
Proof.
  destruct s as [|c t]; simpl; [discriminate|].
  destruct (isspace c); [discriminate|].
  destruct (fields t); discriminate.
Qed.

Lemma fields_spaceless (s : str) : Forall spaceless (fields s).
Proof.
  induction s as [|c t IH]; simpl.
  - repeat constructor.
  - destruct (isspace c) eqn:Hc.
    + constructor; [constructor | exact IH].
    + destruct (fields t) as [|h r].
      * repeat constructor. exact Hc.
      * inversion IH; subst. constructor; [constructor; assumption | assumption].
Qed.

Lemma fields_lower (s : str) : fields (lower s) = map lower (fields s).
Proof.
  unfold lower. induction s as [|c t IH]; simpl; [reflexivity|].
  rewrite isspace_lower_char, IH.
  destruct (isspace c); simpl; [reflexivity|].
  destruct (fields t) as [|h r] eqn:E; [|reflexivity].
  now destruct (fields_not_nil t).
Qed.

Lemma fields_of_spaceless (s : str) : spaceless s -> fields s = [s].
Proof.
  induction 1 as [|c t Hc Ht IH]; simpl; [reflexivity|].
  now rewrite Hc, IH.
Qed.

Lemma fields_app_space (p s : str) (c : ascii) :
  spaceless p -> isspace c = true -> fields (p ++ c :: s) = p :: fields s.
Proof.
  intros Hp Hc. induction Hp as [|x t Hx Ht IH]; simpl.
  - now rewrite Hc.
  - now rewrite Hx, IH.
Qed.

Lemma join_cons (sep p : str) (rest : list str) :
  rest <> [] -> join sep (p :: rest) = p ++ sep ++ join sep rest.
Proof. destruct rest; [congruence | reflexivity]. Qed.

Lemma fields_join (ts : list str) :
  Forall spaceless ts -> ts <> [] -> fields (join space ts) = ts.
Proof.
  induction 1 as [|p rest Hp Hrest IH]; intros Hne; [congruence|].
  destruct rest as [|q rest'].
  - simpl. now apply fields_of_spaceless.
  - rewrite join_cons by discriminate.
    change (space ++ join space (q :: rest')) with (" "%char :: join space (q :: rest')).
    rewrite fields_app_space by (assumption || reflexivity).
    now rewrite IH by discriminate.
Qed.

Lemma lstrip_token (s : str) : spaceless s -> lstrip s = s.
Proof. destruct 1 as [|c t Hc]; simpl; [reflexivity | now rewrite Hc]. Qed.

Lemma rstrip_token (s : str) : spaceless s -> rstrip s = s.
Proof.
  induction 1 as [|c t Hc Ht IH]; simpl; [reflexivity|].
  rewrite IH, Hc. now destruct t.
Qed.

Lemma rstrip_app (a b : str) : rstrip b <> [] -> rstrip (a ++ b) = a ++ rstrip b.
Proof.
  intros Hb. induction a as [|c a IH]; simpl; [reflexivity|].
  rewrite IH. destruct (a ++ rstrip b) eqn:E; [|reflexivity].
  apply app_eq_nil in E. tauto.
Qed.

Lemma split_tokens (s : str) : Forall token (split s).
Proof.
  unfold split. apply Forall_forall. intros t Ht.
  apply filter_In in Ht. destruct Ht as [Hin Hne].
  split; [|exact Hne].
  pose proof (fields_spaceless s) as H. rewrite Forall_forall in H. now apply H.
Qed.

Lemma tokens_spaceless (ts : list str) : Forall token ts -> Forall spaceless ts.
Proof. apply Forall_impl. now intros t [H _]. Qed.

Lemma filter_nonempty_tokens (ts : list str) : Forall token ts -> filter nonempty ts = ts.
Proof.
  induction 1 as [|t ts [_ Ht] _ IH]; simpl; [reflexivity|].
  now rewrite Ht, IH.
Qed.

Lemma split_join (ts : list str) : Forall token ts -> split (join space ts) = ts.
Proof.
  intros H. destruct ts as [|t ts']; [reflexivity|].
  unfold split. rewrite fields_join; [|now apply tokens_spaceless|discriminate].
  now apply filter_nonempty_tokens.
Qed.

Lemma rstrip_join (ts : list str) : Forall token ts -> rstrip (join space ts) = join space ts.
Proof.
  induction 1 as [|p rest [Hp Hne] Hrest IH]; [reflexivity|].
  destruct rest as [|q rest'].
  - simpl. now apply rstrip_token.
  - rewrite join_cons by discriminate.
    assert (Hq : rstrip (join space (q :: rest')) <> []).
    { rewrite IH. inversion Hrest as [|? ? [_ Hq] _]; subst.
      destruct q; [discriminate|]. destruct rest'; discriminate. }
    rewrite app_assoc, rstrip_app by exact Hq. now rewrite IH.
Qed.

Lemma lstrip_join (ts : list str) : Forall token ts -> lstrip (join space ts) = join space ts.
Proof.
  destruct 1 as [|p rest [Hp Hne] Hrest]; [reflexivity|].
  destruct p as [|c p']; [discriminate|].
  inversion Hp; subst.
  destruct rest; simpl; now rewrite H1.
Qed.

Lemma strip_join (ts : list str) : Forall token ts -> strip (join space ts) = join space ts.
Proof.
  intros H. unfold strip. rewrite lstrip_join by exact H. now apply rstrip_join.
Qed.

Lemma collapse_join (ts : list str) :
  Forall token ts -> collapse_whitespace (join space ts) = join space ts.
Proof. intros H. unfold collapse_whitespace. now rewrite split_join. Qed.


(** *** The URL pattern works inside one run of non-whitespace *)

Lemma eqb_space_false (x c : ascii) :
  isspace x = false -> isspace c = true -> Ascii.eqb x c = false.
Proof.
  intros Hx Hc. destruct (Ascii.eqb_spec x c) as [->|]; [congruence | reflexivity].
Qed.

Lemma next_nonspace_first_field (u v : str) (r : list str) :
  fields u = v :: r -> next_nonspace u = next_nonspace v.
Proof.
  destruct u as [|d u']; simpl.
  - intros [= <- _]. reflexivity.
  - destruct (isspace d) eqn:Hd.
    + intros [= <- _]. reflexivity.
    + destruct (fields u'); intros [= <- _]; simpl; now rewrite Hd.
Qed.

Lemma after_prefix_first_field (p : str) :
  spaceless p ->
  forall s h r, fields s = h :: r ->
    match after_prefix p s, after_prefix p h with
    | Some u, Some v => exists r', fields u = v :: r'
    | None, None => True
    | _, _ => False
    end.
Proof.
  induction 1 as [|x p' Hx Hp IH]; intros s h r Hs; simpl.
  - now exists r.
  - destruct s as [|c t]; simpl in Hs.
    + injection Hs as <- _. exact I.
    + destruct (isspace c) eqn:Hc.
      * injection Hs as <- _. now rewrite (eqb_space_false _ _ Hx Hc).
      * destruct (fields t) as [|h' r'] eqn:Ht; injection Hs as <- <-.
        -- now destruct (fields_not_nil t).
        -- destruct (Ascii.eqb x c); [|exact I]. now apply (IH t h' r').
Qed.

Lemma literal_first_field (p s h : str) (r : list str) :
  spaceless p -> fields s = h :: r ->
  literal_then_nonspace p s = literal_then_nonspace p h.
Proof.
  intros Hp Hs. unfold literal_then_nonspace.
  pose proof (after_prefix_first_field p Hp s h r Hs) as H.
  destruct (after_prefix p s), (after_prefix p h); try tauto.
  destruct H as [r' H]. now apply next_nonspace_first_field with r'.
Qed.

Lemma spaceless_http : spaceless (lit "http").
Proof. repeat constructor. Qed.
Lemma spaceless_www : spaceless (lit "www").
Proof. repeat constructor. Qed.
Lemma spaceless_https : spaceless (lit "https").
Proof. repeat constructor. Qed.

Lemma url_at_first_field (s h : str) (r : list str) :
  fields s = h :: r -> url_at s = url_at h.
Proof.
  intros Hs. unfold url_at.
  now rewrite (literal_first_field _ s h r spaceless_http Hs),
    (literal_first_field _ s h r spaceless_www Hs),
    (literal_first_field _ s h r spaceless_https Hs).
Qed.

Lemma fields_sub_urls (s : str) (b : bool) :
  fields (sub_urls b s) =
  match fields s with
  | [] => []
  | h :: r => sub_urls b h :: map (sub_urls false) r
  end.
Proof.
  revert b. induction s as [|c t IH]; intros b; [reflexivity|].
  cbn [sub_urls fields].
  destruct (fields t) as [|h r] eqn:Ht; [now destruct (fields_not_nil t)|].
  destruct (isspace c) eqn:Hc.
  - cbn [fields]. now rewrite Hc, IH.
  - assert (Hf : fields (c :: t) = (c :: h) :: r) by (cbn [fields]; now rewrite Hc, Ht).
    cbn [sub_urls]. rewrite Hc.
    destruct b; [apply IH|].
    rewrite (url_at_first_field _ _ _ Hf).
    destruct (url_at (c :: h)); [apply IH|].
    cbn [fields]. now rewrite Hc, IH.
Qed.

Lemma split_sub_urls (s : str) :
  split (remove_url_matches s) = filter nonempty (map (sub_urls false) (fields s)).
Proof.
  unfold split, remove_url_matches. rewrite fields_sub_urls.
  destruct (fields s) eqn:E; [now destruct (fields_not_nil s) | reflexivity].
Qed.

Lemma sub_urls_Forall (P : ascii -> Prop) (s : str) (b : bool) :
  Forall P s -> Forall P (sub_urls b s).
Proof.
  intros H. revert b. induction H as [|c t Hc Ht IH]; intros b; cbn [sub_urls].
  - constructor.
  - destruct (isspace c); [now constructor|].
    destruct b; [apply IH|].
    destruct (url_at (c :: t)); [apply IH | now constructor].
Qed.

(** *** Removing URL matches twice removes nothing more *)

Lemma sub_urls_inside_head (t y : str) (x : ascii) :
  sub_urls true t = x :: y -> isspace x = true.
Proof.
  induction t as [|c t IH]; cbn [sub_urls]; [discriminate|].
  destruct (isspace c) eqn:Hc; [now intros [= <- _] | exact IH].
Qed.

Lemma sub_urls_copy_head (t y : str) (x : ascii) :
  sub_urls false t = x :: y -> isspace x = false ->
  exists t', t = x :: t' /\ y = sub_urls false t'.
Proof.
  destruct t as [|c t]; cbn [sub_urls]; [discriminate|].
  destruct (isspace c) eqn:Hc.
  - intros [= <- _] Hx. congruence.
  - destruct (url_at (c :: t)).
    + intros H Hx. apply sub_urls_inside_head in H. congruence.
    + intros [= <- <-] _. now exists t.
Qed.

Lemma after_prefix_sub_urls (p : str) :
  spaceless p ->
  forall t r, after_prefix p (sub_urls false t) = Some r -> next_nonspace r = true ->
    exists r', after_prefix p t = Some r' /\ next_nonspace r' = true.
Proof.
  induction 1 as [|x p' Hx Hp IH]; intros t r; simpl.
  - intros [= <-] Hr.
    destruct (sub_urls false t) as [|d y] eqn:E; [discriminate|].
    simpl in Hr. apply negb_true_iff in Hr.
    destruct (sub_urls_copy_head _ _ _ E Hr) as [t' [-> _]].
    exists (d :: t'). simpl. now rewrite Hr.
  - destruct (sub_urls false t) as [|d y] eqn:E; [discriminate|].
    destruct (Ascii.eqb_spec x d) as [<-|]; [|discriminate].
    intros Hy Hr.
    destruct (sub_urls_copy_head _ _ _ E Hx) as [t' [-> ->]].
    rewrite Ascii.eqb_refl. now apply IH with r.
Qed.

Lemma literal_sub_urls (p t : str) (c : ascii) :
  spaceless p ->
  literal_then_nonspace p (c :: sub_urls false t) = true ->
  literal_then_nonspace p (c :: t) = true.
Proof.
  unfold literal_then_nonspace. intros Hp.
  destruct Hp as [|x p' Hx Hp]; simpl; [easy|].
  destruct (Ascii.eqb x c); [|easy].
  destruct (after_prefix p' (sub_urls false t)) as [r|] eqn:E; [|easy].
  intros Hr. destruct (after_prefix_sub_urls p' Hp _ _ E Hr) as [r' [-> Hr']]. exact Hr'.
Qed.

Lemma url_at_sub_urls (t : str) (c : ascii) :
  url_at (c :: t) = false -> url_at (c :: sub_urls false t) = false.
Proof.
  intros H. apply not_true_is_false. intros Hu. unfold url_at in *.
  apply orb_false_iff in H. destruct H as [H H3].
  apply orb_false_iff in H. destruct H as [H1 H2].
  apply orb_true_iff in Hu. destruct Hu as [Hu|Hu];
    [apply orb_true_iff in Hu; destruct Hu as [Hu|Hu]|].
  - apply (literal_sub_urls _ _ _ spaceless_http) in Hu. congruence.
  - apply (literal_sub_urls _ _ _ spaceless_www) in Hu. congruence.
  - apply (literal_sub_urls _ _ _ spaceless_https) in Hu. congruence.
Qed.

Lemma sub_urls_idempotent (s : str) (b : bool) :
  sub_urls false (sub_urls b s) = sub_urls b s.
Proof.
  revert b. induction s as [|c t IH]; intros b; [reflexivity|].
  cbn [sub_urls]. destruct (isspace c) eqn:Hc.
  - cbn [sub_urls]. now rewrite Hc, IH.
  - destruct b; [apply IH|].
    destruct (url_at (c :: t)) eqn:Hu; [apply IH|].
    cbn [sub_urls]. now rewrite Hc, (url_at_sub_urls _ _ Hu), IH.
Qed.

End PyFacts.

Module CleanFacts.
Import Py TextPreprocessing Spec PyFacts.

Lemma lowered_lower (s : str) : lowered (lower s).
Proof.
  unfold lowered, lower. apply Forall_forall. intros c Hc.
  apply in_map_iff in Hc. destruct Hc as [x [<- _]]. apply lower_char_idempotent.
Qed.

Lemma lower_lowered (s : str) : lowered s -> lower s = s.
Proof.
  induction 1 as [|c t Hc Ht IH]; [reflexivity|].
  unfold lower in *. simpl. now rewrite Hc, IH.
Qed.

Lemma spaceless_lower (s : str) : spaceless s -> spaceless (lower s).
Proof.
  induction 1 as [|c t Hc Ht IH]; [constructor|].
  constructor; [now rewrite isspace_lower_char | exact IH].
Qed.

Lemma Forall_join (P : ascii -> Prop) (sep : str) (ts : list str) :
  Forall P sep -> Forall (Forall P) ts -> Forall P (join sep ts).
Proof.
  intros Hsep. induction 1 as [|p rest Hp Hrest IH]; [constructor|].
  destruct rest as [|q rest']; [exact Hp|].
  rewrite join_cons by discriminate.
  apply Forall_app; split; [exact Hp|]. apply Forall_app; split; [exact Hsep | exact IH].
Qed.

Lemma normal_tokens (s : str) :
  Forall clean_token (split (remove_url_matches (lower s))).
Proof.
  rewrite split_sub_urls, fields_lower.
  apply Forall_forall. intros t Ht.
  apply filter_In in Ht. destruct Ht as [Hin Hne].
  apply in_map_iff in Hin. destruct Hin as [u [<- Hu]].
  apply in_map_iff in Hu. destruct Hu as [f [<- Hf]].
  pose proof (fields_spaceless s) as Hs. rewrite Forall_forall in Hs.
  repeat split.
  - apply sub_urls_Forall, spaceless_lower, Hs, Hf.
  - exact Hne.
  - apply sub_urls_Forall, lowered_lower.
  - apply sub_urls_idempotent.
Qed.

Lemma clean_tokens_are_tokens (ts : list str) : Forall clean_token ts -> Forall token ts.
Proof. apply Forall_impl. now intros t [H _]. Qed.

Lemma normal_tokens_fixed (ts : list str) :
  Forall clean_token ts ->
  split (remove_url_matches (lower (join space ts))) = ts.
Proof.
  intros H.
  assert (Htok : Forall token ts) by now apply clean_tokens_are_tokens.
  rewrite lower_lowered.
  2:{ apply Forall_join; [repeat constructor|].
      revert H. apply Forall_impl. now intros t [_ [Hl _]]. }
  destruct ts as [|t ts']; [reflexivity|].
  rewrite split_sub_urls, fields_join; [|now apply tokens_spaceless|discriminate].
  assert (Hmap : map (sub_urls false) (t :: ts') = t :: ts').
  { clear Htok. induction H as [|x l [_ [_ Hx]] _ IH]; [reflexivity|].
    simpl. now rewrite Hx, IH. }
  rewrite Hmap. now apply filter_nonempty_tokens.
Qed.

Section Fallback.

Variable nltk : NLTK.

(** The tokenizer leaves the whitespace-separated words as they are, or
    fails and lets [clean_text] split on whitespace itself. *)
Hypothesis words_only :
  forall text, word_tokenize nltk text = Ok (split text)
               \/ exists e, word_tokenize nltk text = Raise e.

Lemma tokenize_split (text : str) : tokenize nltk text = split text.
Proof.
  unfold tokenize. destruct (words_only text) as [-> | [e ->]]; reflexivity.
Qed.

Lemma clean_text_default (text : str) :
  clean_text nltk _default_preprocessor (PyStr text)
  = join space (split (remove_url_matches (lower text))).
Proof.
  unfold clean_text. cbn -[split join strip lower remove_url_matches tokenize space].
  unfold collapse_whitespace. rewrite tokenize_split.
  pose proof (split_tokens (remove_url_matches (lower text))) as H.
  rewrite split_join by exact H. now apply strip_join.
Qed.

Lemma clean_text_idem (text : str) :
  clean_text nltk _default_preprocessor
    (PyStr (clean_text nltk _default_preprocessor (PyStr text)))
  = clean_text nltk _default_preprocessor (PyStr text).
Proof.
  rewrite !clean_text_default.
  now rewrite normal_tokens_fixed by apply normal_tokens.
Qed.

End Fallback.

(** The default cleaning when the tokenizer, on the one text it is
    handed, returns the whitespace-separated words or fails. *)
Lemma clean_text_default_at (nltk : NLTK) (text : str) :
  let words := collapse_whitespace (remove_url_matches (lower text)) in
  word_tokenize nltk words = Ok (split words)
  \/ (exists e, word_tokenize nltk words = Raise e) ->
  clean_text nltk _default_preprocessor (PyStr text) = words.
Proof.
  cbn zeta. intros H.
  unfold clean_text.
  cbn -[split join strip lower remove_url_matches tokenize space collapse_whitespace].
  set (words := collapse_whitespace (remove_url_matches (lower text))) in *.
  assert (Ht : tokenize nltk words = split words).
  { unfold tokenize. destruct H as [-> | [e ->]]; reflexivity. }
  rewrite Ht. unfold words, collapse_whitespace.
  pose proof (split_tokens (remove_url_matches (lower text))) as Htok.
  rewrite split_join by exact Htok. now apply strip_join.
Qed.

(** The text handed to the tokenizer is not changed by lower-casing,
    URL removal and whitespace collapse once more. *)
Lemma normalised_fixed (text : str) :
  let words := collapse_whitespace (remove_url_matches (lower text)) in
  collapse_whitespace (remove_url_matches (lower words)) = words.
Proof.
  cbn zeta. unfold collapse_whitespace.
  now rewrite normal_tokens_fixed by apply normal_tokens.
Qed.

End CleanFacts.

(* ================================================================== *)
(** * Facts about result mappings and [predict] *)
(* ================================================================== *)

Module DictFacts.
Import Py Classifier Spec.

Lemma str_eqb_spec (a b : str) : reflect (a = b) (str_eqb a b).
Proof.
  revert b. induction a as [|x a IH]; intros [|y b]; simpl; try (constructor; congruence).
  destruct (Ascii.eqb_spec x y) as [->|Hxy]; simpl.
  - destruct (IH b) as [->|Hab]; constructor; congruence.
  - constructor. congruence.
Qed.

Lemma dict_set_new (d : dict) (k : str) (v : Q) :
  ~ In k (keys d) -> dict_set d k v = d ++ [(k, v)].
Proof.
  induction d as [|[k' v'] d IH]; simpl; intros Hk; [reflexivity|].
  destruct (str_eqb_spec k' k) as [->|_]; [tauto|].
  now rewrite IH by tauto.
Qed.

Lemma keys_app (d e : dict) : keys (d ++ e) = keys d ++ keys e.
Proof. apply map_app. Qed.

Lemma values_app (d e : dict) : values (d ++ e) = values d ++ values e.
Proof. apply map_app. Qed.

Lemma NoDup_step (ks : list str) (c : str) (rest : list str) :
  NoDup (ks ++ c :: rest) -> ~ In c ks /\ NoDup ((ks ++ [c]) ++ rest).
Proof.
  intros H. split.
  - apply NoDup_remove_2 in H. intros Hin. apply H, in_or_app. now left.
  - now rewrite <- app_assoc.
Qed.

Lemma NoDup_CATEGORIES : NoDup CATEGORIES.
Proof.
  unfold CATEGORIES.
  repeat (constructor; [simpl; intros H; repeat (destruct H as [H|H]; [discriminate H|]); exact H|]).
  constructor.
Qed.

Lemma dict_const_from (cats : list str) (v : Q) (d : dict) :
  NoDup (keys d ++ cats) ->
  fold_left (fun d category => dict_set d category v) cats d
  = d ++ map (fun category => (category, v)) cats.
Proof.
  revert d. induction cats as [|c rest IH]; intros d H; simpl.
  - now rewrite app_nil_r.
  - destruct (NoDup_step _ _ _ H) as [Hc Hnd].
    rewrite dict_set_new by exact Hc.
    rewrite IH.
    + now rewrite <- app_assoc.
    + rewrite keys_app. exact Hnd.
Qed.

Lemma dict_const_uniform (v : Q) : dict_const CATEGORIES v = uniform v.
Proof.
  unfold dict_const. rewrite dict_const_from; [reflexivity|]. exact NoDup_CATEGORIES.
Qed.

Lemma keys_uniform (v : Q) : keys (uniform v) = CATEGORIES.
Proof. reflexivity. Qed.

Lemma values_uniform (v : Q) : values (uniform v) = repeat v 6.
Proof. reflexivity. Qed.

Lemma well_formed_uniform (v : Q) : unit_interval v -> well_formed (uniform v).
Proof.
  intros Hv. split; [reflexivity|]. rewrite values_uniform. repeat constructor; apply Hv.
Qed.

(** The scores [fill_result] reads are entries of the first output row. *)
Lemma score_at_in (p : list (list Q)) (i : nat) (v : Q) :
  score_at p i = Ok v -> exists row, nth_error p 0 = Some row /\ In v row.
Proof.
  unfold score_at. destruct (nth_error p 0) as [row|]; [|discriminate].
  destruct (nth_error row i) eqn:E; [|discriminate].
  intros [= <-]. exists row. split; [reflexivity|]. now apply nth_error_In with i.
Qed.

Lemma fill_result_spec (P : Q -> Prop) (p : list (list Q)) :
  (forall row, nth_error p 0 = Some row -> Forall P row) ->
  forall cats i d r,
    NoDup (keys d ++ cats) -> Forall P (values d) ->
    fill_result p i cats d = Ok r ->
    keys r = keys d ++ cats /\ Forall P (values r).
Proof.
  intros Hp. induction cats as [|c rest IH]; intros i d r Hnd Hd; simpl.
  - intros [= <-]. now rewrite app_nil_r.
  - destruct (score_at p i) as [v|] eqn:Hv; [|discriminate].
    destruct (NoDup_step _ _ _ Hnd) as [Hc Hnd'].
    rewrite dict_set_new by exact Hc. intros Hr.
    apply IH in Hr.
    + rewrite keys_app, <- app_assoc in Hr. exact Hr.
    + rewrite keys_app. exact Hnd'.
    + rewrite values_app. apply Forall_app. split; [exact Hd|].
      constructor; [|constructor].
      destruct (score_at_in _ _ _ Hv) as [row [Hrow Hin]].
      specialize (Hp row Hrow). rewrite Forall_forall in Hp. now apply Hp.
Qed.

(** The loop on a first row of six outputs or more, and on less. *)
Lemma fill_result_six (row : list Q) (rest : list (list Q)) :
  6 <= List.length row ->
  fill_result (row :: rest) 0 CATEGORIES [] = Ok (combine CATEGORIES (firstn 6 row)).
Proof.
  intros H.
  destruct row as [|a [|b [|c [|d [|e [|f tl]]]]]]; cbn in H; try lia.
  reflexivity.
Qed.

Lemma fill_result_short (p : list (list Q)) :
  match p with [] => True | row :: _ => List.length row < 6 end ->
  exists e, fill_result p 0 CATEGORIES [] = Raise e.
Proof.
  destruct p as [|row rest]; [intros _; now exists IndexError|].
  intros H.
  destruct row as [|a [|b [|c [|d [|e [|f tl]]]]]]; cbn in H; try lia;
    now exists IndexError.
Qed.


End DictFacts.

Module PredictFacts.
Import Py StateExn Classifier Spec DictFacts.

Ltac run := unfold bind, ret, raise, lift, try_except, get, modify in *.

Section WithRuntime.

Variables Model Tokenizer : Type.
Variable rt : Runtime Model Tokenizer.

Lemma unit_interval_0 : unit_interval 0.
Proof. split; discriminate. Qed.

Lemma unit_interval_tenth : unit_interval 0.1.
Proof. split; discriminate. Qed.

Lemma random_random_range (w : World) :
  exists r, random_random rt w = (Ok r, mkWorld (S (rng_pos w)) (forward_passes w))
            /\ (0 <= r)%Q /\ (r < 1)%Q.
Proof.
  unfold random_random. eexists. split; [reflexivity|].
  pose proof (N.mod_upper_bound (random_bits rt (rng_pos w)) (2 ^ 53)%N) as H.
  assert (Hb : (random_bits rt (rng_pos w) mod 2 ^ 53 < 2 ^ 53)%N) by (apply H; discriminate).
  unfold Qle, Qlt. cbn [Qnum Qden].
  split.
  - rewrite Z.mul_1_r. apply N2Z.is_nonneg.
  - apply N2Z.inj_lt in Hb. rewrite Z.mul_1_r, Z.mul_1_l. exact Hb.
Qed.

Lemma random_uniform_range (w : World) :
  exists v, random_uniform rt 0.1 0.9 w = (Ok v, mkWorld (S (rng_pos w)) (forward_passes w))
            /\ (0.1 <= v)%Q /\ (v <= 0.9)%Q.
Proof.
  unfold random_uniform. run.
  destruct (random_random_range w) as [r [-> [H0 H1]]].
  eexists. split; [reflexivity|]. split; lra.
Qed.

Lemma dict_random_spec (cats : list str) :
  forall d w,
    NoDup (keys d ++ cats) -> Forall unit_interval (values d) ->
    exists r, dict_random rt cats d w
              = (Ok r, mkWorld (rng_pos w + List.length cats) (forward_passes w))
              /\ keys r = keys d ++ cats /\ Forall unit_interval (values r).
Proof.
  induction cats as [|c rest IH]; intros d w Hnd Hd; simpl.
  - exists d. run. rewrite Nat.add_0_r, app_nil_r. now destruct w.
  - run. destruct (random_uniform_range w) as [v [-> [Hlo Hhi]]].
    destruct (NoDup_step _ _ _ Hnd) as [Hc Hnd'].
    rewrite dict_set_new by exact Hc.
    destruct (IH (d ++ [(c, v)]) (mkWorld (S (rng_pos w)) (forward_passes w))) as [r [Hr [Hk Hv]]].
    + rewrite keys_app. exact Hnd'.
    + rewrite values_app. apply Forall_app. split; [exact Hd|].
      constructor; [|constructor]. split; cbn [snd]; lra.
    + exists r. rewrite Hr. simpl. rewrite Nat.add_succ_r.
      split; [reflexivity|]. split; [|exact Hv].
      now rewrite Hk, keys_app, <- app_assoc.
Qed.

(** [is_blank] raises on no string. *)
Lemma is_blank_str (s : str) : exists b, is_blank (PyStr s) = Ok b.
Proof. unfold is_blank. destruct (negb (truthy (PyStr s))); eauto. Qed.

Lemma is_blank_true (text : pyval) : blank_input text -> is_blank text = Ok true.
Proof.
  unfold is_blank. intros [Hf | [s [-> Hs]]].
  - now rewrite Hf.
  - destruct (negb (truthy (PyStr s))); [reflexivity|]. now rewrite Hs.
Qed.

(** How [predict] is made of its guard, its [try] block and its handler. *)
Lemma predict_unfold (path : str) (m : option Model) (t : option Tokenizer)
    (text : pyval) (w : World) :
  predict rt (instance path m t) text w =
  match is_blank text with
  | Raise e => (Raise e, w)
  | Ok true => (Ok (uniform 0), w)
  | Ok false =>
      match predict_body rt (instance path m t) text w with
      | (Ok d, w') => (Ok d, w')
      | (Raise _, w') => (Ok (uniform 0.1), w')
      end
  end.
Proof.
  unfold predict. run. cbn [categories instance].
  rewrite !dict_const_uniform.
  destruct (is_blank text) as [[|]|e]; reflexivity.
Qed.

Lemma predict_body_well_formed (path : str) (m : option Model) (t : option Tokenizer)
    (text : pyval) (w w' : World) (d : dict) :
  (forall m0, m = Some m0 -> sigmoid_outputs rt m0) ->
  predict_body rt (instance path m t) text w = (Ok d, w') -> well_formed d.
Proof.
  intros Hsig. unfold predict_body. run. cbn [model categories instance].
  destruct (preprocess_text rt (instance path m t) text) as [x|e]; [|discriminate].
  destruct m as [m0|].
  - unfold forward_pass.
    destruct (model_predict rt m0 x) as [p|e] eqn:Hp; [|discriminate].
    destruct (fill_result p 0 CATEGORIES []) as [r|e] eqn:Hr; [|discriminate].
    intros [= <- _].
    apply (fill_result_spec unit_interval) in Hr.
    + exact Hr.
    + intros row Hrow. specialize (Hsig m0 eq_refl x p Hp).
      rewrite Forall_forall in Hsig. apply Hsig. now apply nth_error_In with 0%nat.
    + exact NoDup_CATEGORIES.
    + constructor.
  - destruct (dict_random_spec CATEGORIES [] w NoDup_CATEGORIES (Forall_nil _))
      as [r [Hr Hwf]].
    rewrite Hr. intros [= <- _]. exact Hwf.
Qed.

Lemma predict_well_formed (path : str) (m : option Model) (t : option Tokenizer)
    (text : pyval) (w w' : World) (d : dict) :
  (forall m0, m = Some m0 -> sigmoid_outputs rt m0) ->
  predict rt (instance path m t) text w = (Ok d, w') -> well_formed d.
Proof.
  intros Hsig. rewrite predict_unfold.
  destruct (is_blank text) as [[|]|e]; [| |discriminate].
  - intros [= <- _]. apply well_formed_uniform, unit_interval_0.
  - destruct (predict_body rt (instance path m t) text w) as [[d'|e] w''] eqn:Hb.
    + intros [= <- _]. now apply predict_body_well_formed in Hb.
    + intros [= <- _]. apply well_formed_uniform, unit_interval_tenth.
Qed.

Lemma predict_keys (path : str) (m : option Model) (t : option Tokenizer)
    (text : pyval) (w w' : World) (d : dict) :
  predict rt (instance path m t) text w = (Ok d, w') -> keys d = CATEGORIES.
Proof.
  rewrite predict_unfold.
  destruct (is_blank text) as [[|]|e]; [| |discriminate].
  - now intros [= <- _].
  - destruct (predict_body rt (instance path m t) text w) as [[d'|e] w''] eqn:Hb;
      [|now intros [= <- _]].
    intros [= <- _]. revert Hb. unfold predict_body. run. cbn [model categories instance].
    destruct (preprocess_text rt (instance path m t) text) as [x|e]; [|discriminate].
    destruct m as [m0|].
    + unfold forward_pass.
      destruct (model_predict rt m0 x) as [p|e]; [|discriminate].
      destruct (fill_result p 0 CATEGORIES []) as [r|e] eqn:Hr; [|discriminate].
      intros [= <- _].
      apply (fill_result_spec (fun _ => True)) in Hr;
        [apply Hr | intros; apply Forall_forall; trivial | exact NoDup_CATEGORIES | constructor].
    + destruct (dict_random_spec CATEGORIES [] w NoDup_CATEGORIES (Forall_nil _))
        as [r [Hr Hwf]].
      rewrite Hr. intros [= <- _]. apply Hwf.
Qed.

(** On a string, [predict] returns. *)
Lemma predict_str_returns (path : str) (m : option Model) (t : option Tokenizer)
    (s : str) (w : World) :
  exists d w', predict rt (instance path m t) (PyStr s) w = (Ok d, w').
Proof.
  rewrite predict_unfold. destruct (is_blank_str s) as [[|] ->]; [eauto|].
  destruct (predict_body rt (instance path m t) (PyStr s) w) as [[d|e] w']; eauto.
Qed.


End WithRuntime.
End PredictFacts.

(* ================================================================== *)
(** * Facts about loading, batches and padding *)
(* ================================================================== *)

Module InitFacts.
Import Py StateExn Classifier Spec DictFacts PredictFacts.

Ltac split_hyps :=
  repeat match goal with
         | H : _ \/ _ |- _ => destruct H
         | H : _ /\ _ |- _ => destruct H
         | H : exists _, _ |- _ => destruct H
         end.

Section WithRuntime.

Variables Model Tokenizer : Type.
Variable rt : Runtime Model Tokenizer.

Lemma load_model_installs (self : ToxicClassifier Model Tokenizer) :
  exists m, _load_model rt self = (Ok tt, set_model (Some m) self)
            /\ (model_load_fails rt (model_path self) ->
                m = dummy_network rt (max_len self)).
Proof.
  unfold _load_model, _load_model_body, call_on_model, _create_dummy_model,
    model_load_fails, model_json_path, weights_path.
  run.
  set (jp := path_join (model_path self) (lit "model.json")).
  set (wp := path_join (model_path self) (lit "weights.h5")).
  destruct (path_exists rt jp) eqn:Hj; cbn [negb];
    [|eexists; split; [reflexivity | reflexivity]].
  destruct (path_exists rt wp) eqn:Hw; cbn [negb];
    [|eexists; split; [reflexivity | reflexivity]].
  destruct (read_file rt jp) as [text|e] eqn:Hr;
    [|eexists; split; [reflexivity | reflexivity]].
  destruct (model_from_json rt text) as [[m0|]|e] eqn:Hm; cbn [model set_model];
    [| eexists; split; [reflexivity | reflexivity]
     | eexists; split; [reflexivity | reflexivity]].
  destruct (load_weights rt m0 wp) as [m1|e] eqn:Hl; cbn [model set_model];
    [|eexists; split; [reflexivity | reflexivity]].
  destruct (compile rt m1) as [m2|e] eqn:Hc; cbn [model set_model];
    [|eexists; split; [reflexivity | reflexivity]].
  exists m2. split; [reflexivity|].
  intros Hf. exfalso. split_hyps; congruence.
Qed.

Lemma load_tokenizer_installs (self : ToxicClassifier Model Tokenizer) :
  exists t, _load_tokenizer rt self = (Ok tt, set_tokenizer t self)
            /\ (tokenizer_load_fails rt (model_path self) ->
                t = Some (sample_tokenizer rt (max_features self)))
            /\ (t = None <-> tokenizer_pickle_is_None rt (model_path self)).
Proof.
  unfold _load_tokenizer, _load_tokenizer_body, _create_dummy_tokenizer,
    tokenizer_load_fails, tokenizer_pickle_is_None, tokenizer_path.
  run.
  set (tp := path_join (model_path self) (lit "tokenizer.pickle")).
  destruct (path_exists rt tp) eqn:Hp.
  - destruct (read_file rt tp) as [handle|e] eqn:Hr.
    + destruct (pickle_load rt handle) as [loaded|e] eqn:Hl.
      * exists loaded. split; [reflexivity|]. split.
        -- intros Hf. exfalso. split_hyps; congruence.
        -- split.
           ++ intros ->. split; [reflexivity|]. now exists handle.
           ++ intros [_ [h [Hh Hn]]]. congruence.
      * eexists. split; [reflexivity|]. split; [reflexivity|].
        split; [discriminate|]. intros [_ [h [Hh Hn]]]. congruence.
    + eexists. split; [reflexivity|]. split; [reflexivity|].
      split; [discriminate|]. intros [_ [h [Hh Hn]]]. congruence.
  - eexists. split; [reflexivity|]. split; [reflexivity|].
    split; [discriminate|]. intros [Hx _]. congruence.
Qed.

(** What the constructor builds. *)
Lemma init_builds (path : str) :
  exists m t,
    __init__ rt path = Ok (instance path (Some m) t)
    /\ (model_load_fails rt path -> m = dummy_network rt 100)
    /\ (tokenizer_load_fails rt path -> t = Some (sample_tokenizer rt 20000))
    /\ (t = None <-> tokenizer_pickle_is_None rt path).
Proof.
  unfold __init__. unfold bind at 1.
  destruct (load_model_installs (fresh Model Tokenizer path)) as [m [-> Hm]].
  destruct (load_tokenizer_installs (set_model (Some m) (fresh Model Tokenizer path))) as [t [-> Ht]].
  exists m, t. split; [reflexivity|]. split; [exact Hm | exact Ht].
Qed.

End WithRuntime.
End InitFacts.

Module BatchFacts.
Import Py StateExn Classifier Spec DictFacts PredictFacts.

Section WithRuntime.

Variables Model Tokenizer : Type.
Variable rt : Runtime Model Tokenizer.
Variable self : ToxicClassifier Model Tokenizer.

(** The list built so far is only ever extended. *)
Lemma batch_loop_results (texts : list pyval) :
  forall results w,
    batch_loop rt self texts results w =
    match batch_loop rt self texts [] w with
    | (Ok rs, w') => (Ok (results ++ rs), w')
    | (Raise e, w') => (Raise e, w')
    end.
Proof.
  induction texts as [|text rest IH]; intros results w; simpl.
  - run. now rewrite app_nil_r.
  - run. destruct (predict rt self text w) as [[d|e] w1]; [|reflexivity].
    rewrite (IH (results ++ [d])), (IH ([] ++ [d])).
    destruct (batch_loop rt self rest [] w1) as [[rs|e] w2]; [|reflexivity].
    now rewrite <- app_assoc.
Qed.

Lemma batch_predict_nil (w : World) : batch_predict rt self [] w = (Ok [], w).
Proof. reflexivity. Qed.

Lemma batch_predict_cons (text : pyval) (rest : list pyval) (w : World) :
  batch_predict rt self (text :: rest) w =
  match predict rt self text w with
  | (Ok d, w1) =>
      match batch_predict rt self rest w1 with
      | (Ok rs, w2) => (Ok (d :: rs), w2)
      | (Raise e, w2) => (Raise e, w2)
      end
  | (Raise e, w1) => (Raise e, w1)
  end.
Proof.
  unfold batch_predict. simpl. run.
  destruct (predict rt self text w) as [[d|e] w1]; [|reflexivity].
  now rewrite batch_loop_results.
Qed.

End WithRuntime.

Section Instances.

Variables Model Tokenizer : Type.
Variable rt : Runtime Model Tokenizer.

(** With a model in place the scores do not depend on the world. *)
Lemma predict_loaded_any_world (path : str) (m0 : Model) (t : option Tokenizer)
    (text : pyval) (w1 w2 : World) :
  fst (predict rt (instance path (Some m0) t) text w1)
  = fst (predict rt (instance path (Some m0) t) text w2).
Proof.
  rewrite !predict_unfold.
  destruct (is_blank text) as [[|]|e]; try reflexivity.
  unfold predict_body, forward_pass. run. cbn [model categories instance].
  destruct (preprocess_text rt (instance path (Some m0) t) text) as [x|e]; [|reflexivity].
  destruct (model_predict rt m0 x) as [p|e]; [|reflexivity].
  destruct (fill_result p 0 CATEGORIES []); reflexivity.
Qed.

(** With a model in place no random number is drawn. *)
Lemma predict_loaded_no_draw (path : str) (m0 : Model) (t : option Tokenizer)
    (text : pyval) (w : World) :
  rng_pos (snd (predict rt (instance path (Some m0) t) text w)) = rng_pos w.
Proof.
  rewrite predict_unfold.
  destruct (is_blank text) as [[|]|e]; try reflexivity.
  unfold predict_body, forward_pass. run. cbn [model categories instance].
  destruct (preprocess_text rt (instance path (Some m0) t) text) as [x|e]; [|reflexivity].
  destruct (model_predict rt m0 x) as [p|e]; [|reflexivity].
  destruct (fill_result p 0 CATEGORIES []); reflexivity.
Qed.

Lemma batch_predict_strings (path : str) (m : option Model) (t : option Tokenizer)
    (ss : list str) :
  forall w,
    exists rs w',
      batch_predict rt (instance path m t) (map PyStr ss) w = (Ok rs, w')
      /\ List.length rs = List.length ss
      /\ (forall i s, nth_error ss i = Some s ->
            exists r,
              nth_error rs i = Some r
              /\ fst (predict rt (instance path m t) (PyStr s)
                        (snd (batch_predict rt (instance path m t)
                                (map PyStr (firstn i ss)) w))) = Ok r)
      /\ Forall (fun r => keys r = CATEGORIES) rs
      /\ ((forall m0, m = Some m0 -> sigmoid_outputs rt m0) -> Forall well_formed rs).
Proof.
  induction ss as [|s ss IH]; intros w.
  - exists [], w. split; [reflexivity|]. split; [reflexivity|].
    split; [intros [|i] s'; discriminate|]. split; constructor.
  - destruct (predict_str_returns _ _ rt path m t s w) as [d [w1 Hd]].
    destruct (IH w1) as [rs [w' [Hrs [Hlen [Hnth [Hkeys Hwf]]]]]].
    exists (d :: rs), w'. cbn [map].
    rewrite batch_predict_cons, Hd, Hrs.
    split; [reflexivity|]. split; [simpl; now rewrite Hlen|].
    split; [|split].
    + intros [|i] s' Hs'; cbn [nth_error firstn map] in *.
      * injection Hs' as <-. exists d. split; [reflexivity|].
        rewrite batch_predict_nil. cbn [snd]. now rewrite Hd.
      * destruct (Hnth i s' Hs') as [r [Hr Hp]]. exists r. split; [exact Hr|].
        rewrite batch_predict_cons, Hd.
        destruct (batch_predict rt (instance path m t) (map PyStr (firstn i ss)) w1)
          as [[rs0|e0] w0]; exact Hp.
    + constructor; [now apply predict_keys in Hd | exact Hkeys].
    + intros Hsig. constructor; [now apply predict_well_formed in Hd | now apply Hwf].
Qed.

End Instances.
End BatchFacts.

Module PadFacts.
Import Py Classifier.

Lemma firstn_repeat_le (A : Type) (x : A) (k n : nat) :
  k <= n -> firstn k (repeat x n) = repeat x k.
Proof.
  revert n. induction k as [|k IH]; intros [|n] H; simpl; try reflexivity; try lia.
  now rewrite IH by lia.
Qed.

Lemma pad_sequence_length (maxlen : nat) (ids : list Z) :
  List.length (pad_sequence maxlen ids) = maxlen.
Proof.
  unfold pad_sequence.
  rewrite length_app, length_firstn, repeat_length, length_skipn. lia.
Qed.

Lemma pad_sequence_short (maxlen : nat) (ids : list Z) :
  List.length ids <= maxlen ->
  pad_sequence maxlen ids = repeat 0%Z (maxlen - List.length ids) ++ ids.
Proof.
  intros H. unfold pad_sequence.
  replace (List.length ids - maxlen) with 0 by lia. cbn [skipn].
  now rewrite firstn_repeat_le by lia.
Qed.

Lemma pad_sequence_long (maxlen : nat) (ids : list Z) :
  maxlen <= List.length ids ->
  pad_sequence maxlen ids = skipn (List.length ids - maxlen) ids.
Proof.
  intros H. unfold pad_sequence. rewrite length_skipn.
  replace (maxlen - (List.length ids - (List.length ids - maxlen))) with 0 by lia.
  reflexivity.
Qed.

End PadFacts.

Module DemoFacts.
Import Py Classifier Spec Demo.


End DemoFacts.

(* ================================================================== *)
(** * The repository's tests, run on the model *)
(* ================================================================== *)

(** The assertions of [tests/test_classifier.py], evaluated on the
    concrete installation (with no artifact, as in a fresh checkout) and
    on an NLTK without tokenizer data. *)
Module SourceTests.
Import Py Classifier Spec Demo TextPreprocessing.

Example test_classifier_initialization :
  __init__ (runtime no_resources) (lit "resources/") = Ok classifier
  /\ categories classifier = CATEGORIES
  /\ max_len classifier = 100.
Proof. repeat split. Qed.

Example test_prediction_format :
  predict (runtime no_resources) classifier (PyStr (lit "Test text")) start
  = (Ok (uniform 0.5), mkWorld 0 1).
Proof. reflexivity. Qed.

Example test_empty_text_handling :
  predict (runtime no_resources) classifier (PyStr (lit "")) start = (Ok (uniform 0), start)
  /\ predict (runtime no_resources) classifier PyNone start = (Ok (uniform 0), start).
Proof. split; reflexivity. Qed.

Example test_batch_prediction :
  let test_texts :=
    map PyStr [lit "This is a great post!"; lit "I hate this stupid content";
               lit "You are an idiot"; lit ""] in
  batch_predict (runtime no_resources) classifier test_texts start
  = (Ok [uniform 0.5; uniform 0.5; uniform 0.5; uniform 0], mkWorld 0 3).
Proof. reflexivity. Qed.

Example test_basic_clean :
  basic_clean (PyStr (lit "This is a TEST with CAPS and   extra spaces"))
  = lit "this is a test with caps and extra spaces".
Proof. reflexivity. Qed.

Example test_preprocess_text :
  preprocess_text nltk_without_punkt
    (PyStr (lit "Visit https://example.com for more info!!!")) None
  = lit "visit for more info!!!".
Proof. reflexivity. Qed.

Example test_none_input_handling :
  preprocess_text nltk_without_punkt PyNone None = lit "none"
  /\ basic_clean PyNone = lit "none".
Proof. split; reflexivity. Qed.

(** Under the constructor's own defaults, which also strip what is not a
    letter, cleaning twice can remove a word that cleaning once made. *)
Example strip_non_letters_then_urls :
  TextPreprocessor_init nltk_without_punkt true false true true true false
  = Ok (mkTextPreprocessor true false true true true false None [])
  /\ clean_text nltk_without_punkt
       (mkTextPreprocessor true false true true true false None [])
       (PyStr (lit "ht1tpx")) = lit "httpx"
  /\ clean_text nltk_without_punkt
       (mkTextPreprocessor true false true true true false None [])
       (PyStr (lit "httpx")) = [].
Proof. repeat split. Qed.

End SourceTests.

(* ================================================================== *)
(** * The classifier *)
(* ================================================================== *)

Module ClassifierTheorems.
Import Py StateExn Classifier Spec DictFacts PredictFacts InitFacts BatchFacts PadFacts.

Section WithRuntime.

Variables Model Tokenizer : Type.
Variable rt : Runtime Model Tokenizer.

(** C1.  On a string [predict] never raises: it returns a mapping.  When
    its [try] block raises, whether in [preprocess_text] (no tokenizer, or
    the tokenizer raising), in the forward pass of the network or while
    the six scores are read, the mapping returned gives 0.1 to each of the
    six categories. *)
Theorem predict_never_raises_on_str
    (path : str) (m : option Model) (t : option Tokenizer) (s : str) (w : World) :
  let self := instance path m t in
  (exists d w', predict rt self (PyStr s) w = (Ok d, w'))
  /\ (forall e w',
        is_blank (PyStr s) = Ok false ->
        predict_body rt self (PyStr s) w = (Raise e, w') ->
        predict rt self (PyStr s) w = (Ok (uniform 0.1), w'))
  /\ (forall e,
        is_blank (PyStr s) = Ok false ->
        preprocess_text rt self (PyStr s) = Raise e ->
        predict rt self (PyStr s) w = (Ok (uniform 0.1), w))
  /\ (forall m0 x e,
        is_blank (PyStr s) = Ok false ->
        m = Some m0 ->
        preprocess_text rt self (PyStr s) = Ok x ->
        model_predict rt m0 x = Raise e ->
        predict rt self (PyStr s) w
        = (Ok (uniform 0.1), mkWorld (rng_pos w) (S (forward_passes w))))
  /\ (forall m0 x p e,
        is_blank (PyStr s) = Ok false ->
        m = Some m0 ->
        preprocess_text rt self (PyStr s) = Ok x ->
        model_predict rt m0 x = Ok p ->
        fill_result p 0 CATEGORIES [] = Raise e ->
        predict rt self (PyStr s) w
        = (Ok (uniform 0.1), mkWorld (rng_pos w) (S (forward_passes w)))).
Proof.
  intros self. subst self.
  split; [apply predict_str_returns|].
  split; [|split; [|split]].
  - intros e w' Hb Hbody. now rewrite predict_unfold, Hb, Hbody.
  - intros e Hb Hpre. rewrite predict_unfold, Hb.
    unfold predict_body. run. now rewrite Hpre.
  - intros m0 x e Hb -> Hpre Hfwd. rewrite predict_unfold, Hb.
    unfold predict_body, forward_pass. run. cbn [model instance].
    now rewrite Hpre, Hfwd.
  - intros m0 x p e Hb -> Hpre Hfwd Hfill. rewrite predict_unfold, Hb.
    unfold predict_body, forward_pass. run. cbn [model categories instance].
    now rewrite Hpre, Hfwd, Hfill.
Qed.

(** C2, as the code has it.  On an empty string, a string of whitespace,
    [None] or another falsy object, [predict] returns 0.0 for each of the
    six categories, runs no forward pass and raises nothing. *)
Theorem predict_blank_is_all_zero
    (path : str) (m : option Model) (t : option Tokenizer) (text : pyval) (w : World) :
  blank_input text ->
  predict rt (instance path m t) text w = (Ok (uniform 0), w).
Proof.
  intros Hb. now rewrite predict_unfold, (is_blank_true _ Hb).
Qed.


(** C4.  On a list of strings [batch_predict] returns a list of the same
    length; its i-th element is what [predict] returns on the i-th text,
    called after the calls for the texts before it; each element has the
    six keys, and probabilities for values when the network has sigmoid
    outputs.  With a model in place the result of [predict] is the same
    whenever it is called. *)
Theorem batch_predict_is_predict_each
    (path : str) (m : option Model) (t : option Tokenizer) (ss : list str) (w : World) :
  let self := instance path m t in
  exists rs w',
    batch_predict rt self (map PyStr ss) w = (Ok rs, w')
    /\ List.length rs = List.length ss
    /\ (forall i s, nth_error ss i = Some s ->
          exists r,
            nth_error rs i = Some r
            /\ fst (predict rt self (PyStr s)
                      (snd (batch_predict rt self (map PyStr (firstn i ss)) w))) = Ok r
            /\ (forall m0 w0, m = Some m0 -> fst (predict rt self (PyStr s) w0) = Ok r))
    /\ Forall (fun r => keys r = CATEGORIES) rs
    /\ ((forall m0, m = Some m0 -> sigmoid_outputs rt m0) -> Forall well_formed rs).
Proof.
  intros self. subst self.
  destruct (batch_predict_strings _ _ rt path m t ss w)
    as [rs [w' [Hrs [Hlen [Hnth [Hkeys Hwf]]]]]].
  exists rs, w'. repeat split; try assumption.
  intros i s Hs. destruct (Hnth i s Hs) as [r [Hr Hp]].
  exists r. repeat split; try assumption.
  intros m0 w0 ->. rewrite <- Hp. apply predict_loaded_any_world.
Qed.

(** C5.  [preprocess_text] returns rows of length 100: each is the
    padding of a sequence of the tokenizer; a sequence of at most 100 ids
    is preceded by zeros, a longer one keeps its last 100 ids. *)
Theorem encoded_rows_have_length_100
    (path : str) (m : option Model) (t : option Tokenizer) (text : pyval) :
  let self := instance path m t in
  (forall x, preprocess_text rt self text = Ok x ->
     Forall (fun row => List.length row = 100) x
     /\ exists tok seqs,
          t = Some tok
          /\ texts_to_sequences rt tok (encoder_input text) = Ok seqs
          /\ x = map (pad_sequence 100) seqs)
  /\ (forall tok seqs,
        t = Some tok ->
        texts_to_sequences rt tok (encoder_input text) = Ok seqs ->
        preprocess_text rt self text = Ok (map (pad_sequence 100) seqs))
  /\ (forall ids,
        List.length (pad_sequence 100 ids) = 100
        /\ (List.length ids <= 100 ->
            pad_sequence 100 ids = repeat 0%Z (100 - List.length ids) ++ ids)
        /\ (100 <= List.length ids ->
            pad_sequence 100 ids = skipn (List.length ids - 100) ids)).
Proof.
  intros self. subst self.
  assert (Hin : forall v, py_str (if isinstance_str v then v else PyStr (py_str v)) = py_str v)
    by (intros []; reflexivity).
  split; [|split].
  - intros x. unfold preprocess_text. cbn [tokenizer max_len instance]. rewrite Hin.
    destruct t as [tok|]; [|discriminate].
    fold (encoder_input text).
    destruct (texts_to_sequences rt tok (encoder_input text)) as [seqs|e] eqn:Hs;
      [|discriminate].
    intros [= <-]. split.
    + unfold pad_sequences. apply Forall_forall. intros row Hrow.
      apply in_map_iff in Hrow. destruct Hrow as [ids [<- _]].
      apply pad_sequence_length.
    + now exists tok, seqs.
  - intros tok seqs -> Hs. unfold preprocess_text. cbn [tokenizer max_len instance].
    rewrite Hin. fold (encoder_input text). now rewrite Hs.
  - intros ids. split; [apply pad_sequence_length|].
    split; [apply pad_sequence_short | apply pad_sequence_long].
Qed.

(** C6.  Encoding is a function of the text and the tokenizer: two
    classifier objects that hold the same tokenizer and the same maximal
    length encode every text alike, whatever their model and their path. *)
Theorem encoding_is_deterministic
    (c1 c2 : ToxicClassifier Model Tokenizer) (text : pyval) :
  tokenizer c1 = tokenizer c2 ->
  max_len c1 = max_len c2 ->
  preprocess_text rt c1 text = preprocess_text rt c2 text.
Proof.
  intros Ht Hl. unfold preprocess_text. now rewrite Ht, Hl.
Qed.

(** C9.  The constructor always returns an object.  When the
    architecture or the weights are absent or fail to load, the object
    holds the untrained fallback network; when the tokenizer file is
    absent or fails to load, it holds the sample tokenizer.  On every
    string [predict] then returns a mapping with the six keys (and with
    probabilities, given sigmoid outputs). *)
Theorem init_falls_back (path : str) :
  exists self,
    __init__ rt path = Ok self
    /\ (model_load_fails rt path -> model self = Some (dummy_network rt 100))
    /\ (tokenizer_load_fails rt path ->
        tokenizer self = Some (sample_tokenizer rt 20000))
    /\ (forall s w,
          exists d w',
            predict rt self (PyStr s) w = (Ok d, w')
            /\ keys d = CATEGORIES
            /\ ((forall m0, model self = Some m0 -> sigmoid_outputs rt m0) ->
                well_formed d)).
Proof.
  destruct (init_builds _ _ rt path) as [m [t [Hinit [Hm [Ht _]]]]].
  exists (instance path (Some m) t). split; [exact Hinit|].
  split; [intros H; cbn; now rewrite (Hm H)|].
  split; [intros H; cbn; now rewrite (Ht H)|].
  intros s w.
  destruct (predict_str_returns _ _ rt path (Some m) t s w) as [d [w' Hd]].
  exists d, w'. split; [exact Hd|]. split; [now apply predict_keys in Hd|].
  intros Hsig. now apply (predict_well_formed _ _ rt path (Some m) t (PyStr s) w w' d).
Qed.

Lemma model_loaded_spec (self : ToxicClassifier Model Tokenizer) :
  model_loaded (get_model_info rt self)
  = match model self with Some _ => true | None => false end
  /\ tokenizer_loaded (get_model_info rt self)
     = match tokenizer self with Some _ => true | None => false end.
Proof.
  unfold get_model_info. destruct (model self) as [m0|]; [|now split].
  destruct (count_params rt m0); [|now split].
  destruct (layers_len rt m0); now split.
Qed.

(** C10, as the code has it.  After [__init__] the model is never
    [None]: [get_model_info] reports [model_loaded = True] and [predict]
    never draws random scores.  The tokenizer is [None] exactly when the
    tokenizer file unpickles, without error, to [None]; in every other
    case [tokenizer_loaded] is [True]. *)
Theorem init_model_never_None (path : str) :
  exists self,
    __init__ rt path = Ok self
    /\ model self <> None
    /\ model_loaded (get_model_info rt self) = true
    /\ (forall text w, rng_pos (snd (predict rt self text w)) = rng_pos w)
    /\ (tokenizer self = None <-> tokenizer_pickle_is_None rt path)
    /\ (tokenizer_loaded (get_model_info rt self) = false
        <-> tokenizer_pickle_is_None rt path).
Proof.
  destruct (init_builds _ _ rt path) as [m [t [Hinit [_ [_ Hnone]]]]].
  exists (instance path (Some m) t). split; [exact Hinit|].
  destruct (model_loaded_spec (instance path (Some m) t)) as [Hml Htl].
  split; [discriminate|]. split; [exact Hml|].
  split; [intros text w; apply predict_loaded_no_draw|].
  split; [exact Hnone|].
  rewrite Htl. cbn [tokenizer instance]. rewrite <- Hnone.
  destruct t; split; congruence.
Qed.

End WithRuntime.
End ClassifierTheorems.

(* ================================================================== *)
(** * The theorems on the concrete installation *)
(* ================================================================== *)

Module ClassifierExamples.
Import Py StateExn Classifier Spec Demo DemoFacts ClassifierTheorems.

Lemma predict_never_raises_on_str_witness :
  predict (runtime full_resources)
    (instance (lit "resources/") (Some Faulty) (Some Fitted))
    (PyStr (lit "You are an idiot")) start
  = (Ok (uniform 0.1), mkWorld 0 1).
Proof.
  destruct (predict_never_raises_on_str Net Vocab (runtime full_resources)
              (lit "resources/") (Some Faulty) (Some Fitted)
              (lit "You are an idiot") start) as [_ [_ [_ [H _]]]].
  eapply (H Faulty _ ValueError); reflexivity.
Defined.

Lemma predict_blank_is_all_zero_witness :
  let self := instance (lit "resources/") (Some Trained) (Some Fitted) in
  predict (runtime full_resources) self (PyStr (lit "   ")) start = (Ok (uniform 0), start)
  /\ predict (runtime full_resources) self PyNone start = (Ok (uniform 0), start).
Proof.
  split; apply predict_blank_is_all_zero.
  - right. exists (lit "   "). split; reflexivity.
  - left. reflexivity.
Defined.

(** C2 fails for a value that is not falsy and has no [strip] method: on
    the number 5 the test [text.strip()] raises [AttributeError], outside
    the [try] block. *)
Lemma predict_raises_on_int :
  exists self,
    __init__ (runtime full_resources) (lit "resources/") = Ok self
    /\ predict (runtime full_resources) self (PyInt 5) start
       = (Raise AttributeError, start).
Proof. eexists. split; vm_compute; reflexivity. Qed.



Lemma batch_predict_is_predict_each_witness :
  exists rs w',
    batch_predict (runtime full_resources)
      (instance (lit "resources/") (Some Trained) (Some Fitted))
      (map PyStr [lit "great post"; lit ""; lit "you idiot"]) start = (Ok rs, w')
    /\ List.length rs = 3.
Proof.
  destruct (batch_predict_is_predict_each Net Vocab (runtime full_resources)
              (lit "resources/") (Some Trained) (Some Fitted)
              [lit "great post"; lit ""; lit "you idiot"] start)
    as [rs [w' [H1 [H2 _]]]].
  exists rs, w'. split; assumption.
Defined.

Lemma encoded_rows_have_length_100_witness :
  preprocess_text (runtime full_resources)
    (instance (lit "resources/") (Some Trained) (Some Fitted))
    (PyStr (lit "You are an Idiot"))
  = Ok [pad_sequence 100 [3; 3; 2; 5]%Z]
  /\ pad_sequence 100 [3; 3; 2; 5]%Z = repeat 0%Z 96 ++ [3; 3; 2; 5]%Z.
Proof.
  destruct (encoded_rows_have_length_100 Net Vocab (runtime full_resources)
              (lit "resources/") (Some Trained) (Some Fitted)
              (PyStr (lit "You are an Idiot"))) as [_ [H Hpad]].
  split.
  - apply (H Fitted [[3; 3; 2; 5]%Z]); reflexivity.
  - destruct (Hpad [3; 3; 2; 5]%Z) as [_ [Hshort _]]. apply Hshort. cbn. lia.
Defined.

Lemma encoding_is_deterministic_witness :
  preprocess_text (runtime full_resources)
    (instance (lit "resources/") (Some Trained) (Some Fitted))
    (PyStr (lit "You are an Idiot"))
  = preprocess_text (runtime full_resources)
      (instance (lit "elsewhere") None (Some Fitted))
      (PyStr (lit "You are an Idiot")).
Proof. apply encoding_is_deterministic; reflexivity. Defined.

Lemma init_falls_back_witness :
  exists self,
    __init__ (runtime no_resources) (lit "resources/") = Ok self
    /\ model self = Some Untrained
    /\ tokenizer self = Some Sample.
Proof.
  destruct (init_falls_back Net Vocab (runtime no_resources) (lit "resources/"))
    as [self [H1 [H2 [H3 _]]]].
  exists self. split; [exact H1|].
  split; [apply H2 | apply H3]; left; reflexivity.
Defined.

(** C10 fails for the tokenizer: a tokenizer file that holds a pickled
    [None] loads without error, and the attribute stays [None]. *)
Lemma tokenizer_None_after_init :
  exists self,
    __init__ (runtime none_pickled) (lit "resources/") = Ok self
    /\ tokenizer self = None
    /\ tokenizer_loaded (get_model_info (runtime none_pickled) self) = false.
Proof. eexists. split; [vm_compute; reflexivity|]. split; reflexivity. Qed.

End ClassifierExamples.

(* ================================================================== *)
(** * The preprocessor *)
(* ================================================================== *)

Module PreprocessingTheorems.
Import Py TextPreprocessing Spec PyFacts CleanFacts.

(** C7, as the code has it.  Under the default configuration (lower
    case, URL removal, whitespace collapse) cleaning a text twice gives
    what cleaning it once gives, for every text whose normalised form,
    the one text [clean_text] hands to the word tokenizer, is split by
    the tokenizer into its whitespace-separated words, or makes the
    tokenizer fail so that [clean_text] splits on whitespace itself.
    Nothing is asked of the tokenizer on any other text. *)
Theorem clean_text_idempotent_on_words (nltk : NLTK) (text : str) :
  let words := collapse_whitespace (remove_url_matches (lower text)) in
  word_tokenize nltk words = Ok (split words)
  \/ (exists e, word_tokenize nltk words = Raise e) ->
  clean_text nltk _default_preprocessor
    (PyStr (clean_text nltk _default_preprocessor (PyStr text)))
  = clean_text nltk _default_preprocessor (PyStr text).
Proof.
  cbn zeta. intros H.
  rewrite (clean_text_default_at nltk text H).
  pose proof (clean_text_default_at nltk
                (collapse_whitespace (remove_url_matches (lower text)))) as H2.
  cbn zeta in H2. rewrite normalised_fixed in H2. exact (H2 H).
Qed.

(** The tokenizer that rewrites quotation marks, on a text without
    them. *)
Lemma clean_text_idempotent_on_words_witness :
  let text := lit "Visit  HTTPS://Example.com   NOW, or www.x.org" in
  clean_text Demo.treebank_quotes _default_preprocessor
    (PyStr (clean_text Demo.treebank_quotes _default_preprocessor (PyStr text)))
  = clean_text Demo.treebank_quotes _default_preprocessor (PyStr text).
Proof.
  apply (clean_text_idempotent_on_words Demo.treebank_quotes).
  left. reflexivity.
Defined.

(** C7 fails for a tokenizer that rewrites tokens: with the Treebank
    rendering of quotation marks the text made of a, a double quote and b
    is cleaned to a, two apostrophes, b; and that text is cleaned to a,
    two backquotes, b. *)
Lemma clean_text_not_idempotent :
  let clean := clean_text Demo.treebank_quotes _default_preprocessor in
  let text := lit "a" ++ [Demo.dquote] ++ lit "b" in
  clean (PyStr text) = lit "a '' b"
  /\ clean (PyStr (clean (PyStr text))) = lit "a `` b"
  /\ clean (PyStr (clean (PyStr text))) <> clean (PyStr text).
Proof.
  repeat split; try (vm_compute; reflexivity).
  vm_compute. discriminate.
Qed.

Lemma py_str_of_arg (v : pyval) :
  py_str (if isinstance_str v then v else PyStr (py_str v)) = py_str v.
Proof. now destruct v. Qed.

(** C8, as the code has it.  An argument that is not a string is turned
    into text by [str] and cleaned as any text.  For [None] that text is
    [None]: [basic_clean] returns [none], and so does [clean_text] under
    every configuration that lowers the case, keeps stop words and does
    not stem, when the word tokenizer leaves the word [none] alone or
    fails. *)
Theorem clean_non_string_is_str (nltk : NLTK) :
  (forall self v, clean_text nltk self v = clean_text nltk self (PyStr (py_str v)))
  /\ (forall v, basic_clean v = basic_clean (PyStr (py_str v)))
  /\ py_str PyNone = lit "None"
  /\ basic_clean PyNone = lit "none"
  /\ (word_tokenize nltk (lit "none") = Ok [lit "none"]
      \/ (exists e, word_tokenize nltk (lit "none") = Raise e) ->
      (forall self,
          lowercase self = true -> remove_stopwords self = false ->
          stemming self = false ->
          clean_text nltk self PyNone = lit "none")
      /\ preprocess_text nltk PyNone None = lit "none").
Proof.
  split; [|split; [|split; [|split]]]; try reflexivity.
  - intros self v. unfold clean_text. now rewrite !py_str_of_arg.
  - intros v. unfold basic_clean. now rewrite !py_str_of_arg.
  - intros Htok.
    assert (Ht : tokenize nltk (lit "none") = [lit "none"]).
    { unfold tokenize. destruct Htok as [-> | [e ->]]; reflexivity. }
    assert (Hclean : forall self,
               lowercase self = true -> remove_stopwords self = false ->
               stemming self = false -> clean_text nltk self PyNone = lit "none").
    { intros [rp rs lc ru rsc st stm sw]. cbn. intros -> -> ->.
      unfold clean_text. cbn [lowercase remove_urls remove_special_chars
        remove_stopwords remove_punctuation stemming stemmer stop_words andb].
      destruct ru, rsc, rp;
        match goal with
        | |- context [tokenize nltk ?x] =>
            replace (tokenize nltk x) with [lit "none"]
              by (rewrite <- Ht; f_equal)
        end; reflexivity. }
    split; [exact Hclean|].
    unfold preprocess_text. now apply Hclean.
Qed.

Lemma clean_non_string_is_str_witness :
  clean_text nltk_without_punkt _default_preprocessor PyNone = lit "none"
  /\ clean_text nltk_without_punkt _default_preprocessor (PyBool true) = lit "true".
Proof.
  destruct (clean_non_string_is_str nltk_without_punkt) as [Hstr [_ [_ [_ Hnone]]]].
  split.
  - apply Hnone; [right; exists LookupError|..]; reflexivity.
  - rewrite Hstr. reflexivity.
Defined.

(** C8 fails for a number: [5] is cleaned to the text [5]. *)
Lemma clean_int_is_not_none :
  clean_text nltk_without_punkt _default_preprocessor (PyInt 5) = lit "5"
  /\ basic_clean (PyInt 5) = lit "5"
  /\ lit "5" <> lit "none".
Proof. repeat split; try reflexivity. discriminate. Qed.

End PreprocessingTheorems.

Module StripFacts.
Import Py Spec PyFacts CleanFacts CleanSpec.

Lemma lstrip_lower (s : str) : lstrip (lower s) = lower (lstrip s).
Proof.
  unfold lower. induction s as [|c t IH]; [reflexivity|].
  cbn [map lstrip]. rewrite isspace_lower_char.
  destruct (isspace c); [exact IH | reflexivity].
Qed.

Lemma rstrip_lower (s : str) : rstrip (lower s) = lower (rstrip s).
Proof.
  unfold lower. induction s as [|c t IH]; [reflexivity|].
  cbn [map rstrip]. rewrite IH, isspace_lower_char.
  destruct (rstrip t); cbn [map]; [|reflexivity].
  now destruct (isspace c).
Qed.

Lemma strip_lower (s : str) : strip (lower s) = lower (strip s).
Proof. unfold strip. now rewrite lstrip_lower, rstrip_lower. Qed.

Lemma rstrip_idempotent (s : str) : rstrip (rstrip s) = rstrip s.
Proof.
  induction s as [|c t IH]; [reflexivity|].
  cbn [rstrip]. destruct (rstrip t) as [|x r] eqn:E.
  - destruct (isspace c) eqn:Hc; [reflexivity|]. cbn [rstrip]. now rewrite Hc.
  - cbn [rstrip] in *. now rewrite IH.
Qed.

(** The text does not start with whitespace. *)
Lemma lstrip_head (s : str) :
  match lstrip s with [] => True | c :: _ => isspace c = false end.
Proof.
  induction s as [|c t IH]; [exact I|].
  cbn [lstrip]. destruct (isspace c) eqn:Hc; [exact IH | exact Hc].
Qed.

Lemma lstrip_rstrip (x : str) :
  match x with [] => True | c :: _ => isspace c = false end ->
  lstrip (rstrip x) = rstrip x.
Proof.
  destruct x as [|c t]; [reflexivity|]. intros Hc.
  cbn [rstrip]. destruct (rstrip t); rewrite ?Hc; cbn [lstrip]; now rewrite Hc.
Qed.

Lemma strip_idempotent (s : str) : strip (strip s) = strip s.
Proof.
  unfold strip. rewrite (lstrip_rstrip _ (lstrip_head s)). apply rstrip_idempotent.
Qed.

Lemma strip_nil_lower (s : str) : strip (lower s) = [] <-> strip s = [].
Proof.
  rewrite strip_lower. unfold lower.
  destruct (strip s); cbn [map]; split; congruence.
Qed.

(** *** Whitespace at either end adds only empty fields *)

Section Words.

Variable f : str -> str.
Hypothesis f_nil : f [] = [].

Lemma words_by_empties (l : list str) (k : nat) :
  filter nonempty (map f (l ++ repeat [] k)) = filter nonempty (map f l).
Proof.
  rewrite map_app, filter_app.
  replace (filter nonempty (map f (repeat [] k))) with (@nil str);
    [apply app_nil_r|].
  induction k as [|k IH]; [reflexivity|]. cbn. now rewrite f_nil.
Qed.

Lemma words_by_lstrip (s : str) :
  filter nonempty (map f (fields (lstrip s))) = filter nonempty (map f (fields s)).
Proof.
  induction s as [|c t IH]; [reflexivity|].
  cbn [lstrip]. destruct (isspace c) eqn:Hc; [|reflexivity].
  rewrite IH. cbn [fields]. rewrite Hc. cbn. now rewrite f_nil.
Qed.

Lemma fields_cons (c : ascii) (t : str) :
  fields (c :: t) =
  if isspace c then [] :: fields t
  else match fields t with [] => [[c]] | h :: r => (c :: h) :: r end.
Proof. reflexivity. Qed.

Lemma fields_rstrip (s : str) :
  exists k, fields s = fields (rstrip s) ++ repeat [] k.
Proof.
  induction s as [|c t [k IH]]; [now exists 0|].
  cbn [rstrip]. rewrite fields_cons, IH.
  destruct (rstrip t) as [|x r] eqn:E.
  - cbn [fields app]. destruct (isspace c) eqn:Hc.
    + exists (S k). reflexivity.
    + exists k. cbn [fields]. now rewrite Hc.
  - rewrite (fields_cons c (x :: r)).
    destruct (fields (x :: r)) as [|h r1] eqn:Ef;
      [now destruct (fields_not_nil (x :: r))|].
    exists k. now destruct (isspace c).
Qed.

Lemma words_by_strip (s : str) :
  filter nonempty (map f (fields (strip s))) = filter nonempty (map f (fields s)).
Proof.
  unfold strip. destruct (fields_rstrip (lstrip s)) as [k Hk].
  rewrite <- (words_by_lstrip s), Hk. now rewrite words_by_empties.
Qed.

End Words.

Lemma split_sub_urls_strip (s : str) :
  split (remove_url_matches (strip s)) = split (remove_url_matches s).
Proof.
  rewrite !split_sub_urls. apply (words_by_strip (sub_urls false)). reflexivity.
Qed.

Lemma split_strip (s : str) : split (strip s) = split s.
Proof.
  unfold split. pose proof (words_by_strip (fun x => x) eq_refl s) as H.
  now rewrite !map_id in H.
Qed.

Lemma split_collapse (s : str) : split (collapse_whitespace s) = split s.
Proof. unfold collapse_whitespace. apply split_join, split_tokens. Qed.

(** *** URL removal and joined tokens *)

Lemma sub_urls_app_space (p s : str) (c : ascii) (b : bool) :
  spaceless p -> isspace c = true ->
  sub_urls b (p ++ c :: s) = sub_urls b p ++ c :: sub_urls false s.
Proof.
  intros Hp Hc. revert b. induction Hp as [|x t Hx Ht IH]; intros b.
  - cbn [app sub_urls]. now rewrite Hc.
  - cbn [app sub_urls]. rewrite Hx.
    destruct b; [apply IH|].
    assert (Hf : fields ((x :: t) ++ c :: s) = (x :: t) :: fields s)
      by (apply fields_app_space; [now constructor | exact Hc]).
    assert (Hg : fields (x :: t) = [x :: t])
      by (apply fields_of_spaceless; now constructor).
    cbn [app] in Hf.
    rewrite (url_at_first_field _ _ _ Hf).
    destruct (url_at (x :: t)); [apply IH|].
    cbn [app]. now rewrite IH.
Qed.

Lemma sub_urls_join (ts : list str) :
  Forall token ts ->
  Forall (fun t => sub_urls false t = t) ts ->
  sub_urls false (join space ts) = join space ts.
Proof.
  induction 1 as [|p rest [Hp _] Hrest IH]; intros Hfix; [reflexivity|].
  inversion Hfix as [|? ? Hp' Hrest']; subst.
  destruct rest as [|q rest']; [exact Hp'|].
  rewrite join_cons by discriminate.
  change (space ++ join space (q :: rest')) with (" "%char :: join space (q :: rest')).
  rewrite sub_urls_app_space by (assumption || reflexivity).
  now rewrite Hp', IH.
Qed.

End StripFacts.

Module CleanMoreFacts.
Import Py TextPreprocessing Spec PyFacts CleanFacts CleanSpec StripFacts.

Lemma py_str_arg (v : pyval) :
  py_str (if isinstance_str v then v else PyStr (py_str v)) = py_str v.
Proof. now destruct v. Qed.

Lemma basic_clean_form (v : pyval) :
  basic_clean v = join space (split (remove_url_matches (lower (py_str v)))).
Proof.
  unfold basic_clean, collapse_whitespace. rewrite py_str_arg.
  now rewrite split_sub_urls_strip.
Qed.

Lemma Forall_filter (A : Type) (P : A -> Prop) (p : A -> bool) (l : list A) :
  Forall P l -> Forall P (filter p l).
Proof.
  intros H. apply Forall_forall. intros x Hx. apply filter_In in Hx.
  rewrite Forall_forall in H. now apply H.
Qed.

Lemma filter_filter (A : Type) (p q : A -> bool) (l : list A) :
  filter q (filter p l) = filter (fun x => p x && q x) l.
Proof.
  induction l as [|x l IH]; [reflexivity|].
  cbn [filter]. destruct (p x); cbn [filter andb]; [|exact IH].
  destruct (q x); now rewrite IH.
Qed.

Lemma filter_true (A : Type) (l : list A) : filter (fun _ => true && true) l = l.
Proof. induction l as [|x l IH]; [reflexivity|]. cbn. f_equal. exact IH. Qed.

Lemma filter_idempotent (A : Type) (p : A -> bool) (l : list A) :
  filter p (filter p l) = filter p l.
Proof.
  induction l as [|x l IH]; [reflexivity|].
  cbn [filter]. destruct (p x) eqn:E; [|exact IH].
  cbn [filter]. now rewrite E, IH.
Qed.

(** The two filters of [clean_text] in one. *)
Lemma filters_kept (self : TextPreprocessor) (ts : list str) :
  (if remove_punctuation self
   then filter (fun token => negb (substring_of token punctuation))
          (if remove_stopwords self
                && match stop_words self with [] => false | _ :: _ => true end
           then filter (fun token => negb (str_in (lower token) (stop_words self))) ts
           else ts)
   else (if remove_stopwords self
               && match stop_words self with [] => false | _ :: _ => true end
         then filter (fun token => negb (str_in (lower token) (stop_words self))) ts
         else ts))
  = filter (kept self) ts.
Proof.
  unfold kept.
  destruct (remove_stopwords self && match stop_words self with [] => false | _ :: _ => true end),
    (remove_punctuation self); rewrite ?filter_filter;
    first [ reflexivity
          | apply filter_ext; intros a; now rewrite andb_true_r
          | symmetry; apply filter_true ].
Qed.

(** [clean_text] by its stages: the filtered tokens, stemmed if that is
    asked for and works, joined and stripped. *)
Lemma clean_text_stages (nltk : NLTK) (self : TextPreprocessor) (v : pyval) :
  clean_text nltk self v
  = strip (join space
      (let tokens := filtered_tokens nltk self (py_str v) in
       if stemming self && match stemmer self with Some _ => true | None => false end
       then match map_result (stem nltk) tokens with
            | Ok stemmed => stemmed
            | Raise _ => tokens
            end
       else tokens)).
Proof.
  unfold clean_text, filtered_tokens. rewrite py_str_arg.
  fold (normalised self (py_str v)). cbn zeta. now rewrite filters_kept.
Qed.

Lemma fields_Forall (P : ascii -> Prop) (s : str) :
  Forall P s -> Forall (Forall P) (fields s).
Proof.
  induction 1 as [|c t Hc Ht IH]; [repeat constructor|].
  cbn [fields]. destruct (isspace c); [constructor; [constructor | exact IH]|].
  destruct (fields t) as [|h r]; [now repeat constructor|].
  inversion IH; subst. constructor; [now constructor | assumption].
Qed.

Lemma split_Forall (P : ascii -> Prop) (s : str) :
  Forall P s -> Forall (Forall P) (split s).
Proof. intros H. apply Forall_filter, fields_Forall, H. Qed.

Section WordsOnly.

Variable nltk : NLTK.
Hypothesis Hwords : words_only nltk.

Lemma tokenize_words (text : str) : tokenize nltk text = split text.
Proof.
  unfold tokenize. destruct (Hwords text) as [-> | [e ->]]; reflexivity.
Qed.

(** Without stemming the result is the kept words of the normalised
    text, one space apart. *)
Lemma clean_text_form (self : TextPreprocessor) (v : pyval) :
  stemming self = false ->
  clean_text nltk self v
  = join space (filter (kept self) (split (normalised self (py_str v)))).
Proof.
  intros Hst. rewrite clean_text_stages, Hst. cbn [andb].
  unfold filtered_tokens. rewrite tokenize_words.
  apply strip_join, Forall_filter, split_tokens.
Qed.

Lemma clean_text_words (self : TextPreprocessor) (v : pyval) :
  stemming self = false ->
  split (clean_text nltk self v)
  = filter (kept self) (split (normalised self (py_str v))).
Proof.
  intros Hst. rewrite clean_text_form by exact Hst.
  apply split_join, Forall_filter, split_tokens.
Qed.

End WordsOnly.

(** *** Tokens of a normalised text, for each setting of the two flags *)

Lemma flag_tokens_of (lc ru : bool) (t : str) :
  Forall (flag_token lc ru)
    (split (let t1 := if lc then lower t else t in
            if ru then remove_url_matches t1 else t1)).
Proof.
  cbn zeta. set (t1 := if lc then lower t else t).
  assert (Hlow : lc = true -> lowered t1).
  { intros ->. apply lowered_lower. }
  clearbody t1. apply Forall_forall. intros w Hw.
  destruct ru.
  - rewrite split_sub_urls in Hw. apply filter_In in Hw. destruct Hw as [Hin Hne].
    apply in_map_iff in Hin. destruct Hin as [f [<- Hf]].
    pose proof (fields_spaceless t1) as Hs. rewrite Forall_forall in Hs.
    repeat split.
    + apply sub_urls_Forall. apply (Hs f Hf).
    + exact Hne.
    + intros Hlc. apply sub_urls_Forall.
      pose proof (fields_Forall _ t1 (Hlow Hlc)) as Hfl.
      rewrite Forall_forall in Hfl. now apply Hfl.
    + intros _. apply sub_urls_idempotent.
  - pose proof (split_tokens t1) as Ht. rewrite Forall_forall in Ht.
    split; [now apply Ht|]. split; [|discriminate].
    intros Hlc. pose proof (split_Forall _ t1 (Hlow Hlc)) as Hfl.
    rewrite Forall_forall in Hfl. now apply Hfl.
Qed.

Lemma flag_tokens_fixed (lc ru : bool) (ts : list str) :
  Forall (flag_token lc ru) ts ->
  split (let t1 := if lc then lower (join space ts) else join space ts in
         if ru then remove_url_matches t1 else t1) = ts.
Proof.
  intros H. cbn zeta.
  assert (Htok : Forall token ts).
  { revert H. apply Forall_impl. now intros t [Ht _]. }
  assert (Hl : (if lc then lower (join space ts) else join space ts) = join space ts).
  { destruct lc; [|reflexivity]. apply lower_lowered.
    apply Forall_join; [repeat constructor|].
    revert H. apply Forall_impl. intros t [_ [Hlow _]]. now apply Hlow. }
  rewrite Hl. destruct ru; [|now apply split_join].
  destruct ts as [|t ts']; [reflexivity|].
  rewrite split_sub_urls, fields_join; [|now apply tokens_spaceless|discriminate].
  assert (Hmap : map (sub_urls false) (t :: ts') = t :: ts').
  { clear Htok Hl. induction H as [|x l [_ [_ Hx]] _ IH]; [reflexivity|].
    cbn [map]. now rewrite (Hx eq_refl), IH. }
  rewrite Hmap. now apply filter_nonempty_tokens.
Qed.


Lemma kept_default (token : str) : kept _default_preprocessor token = true.
Proof. reflexivity. Qed.

Lemma filter_all (A : Type) (p : A -> bool) (l : list A) :
  (forall x, p x = true) -> filter p l = l.
Proof.
  intros H. induction l as [|x l IH]; [reflexivity|]. cbn. now rewrite H, IH.
Qed.

Lemma map_result_raises (A B : Type) (f : A -> result B) (l : list A) (x : A) (e : exn) :
  In x l -> f x = Raise e -> exists e', map_result f l = Raise e'.
Proof.
  induction l as [|y l IH]; [intros []|].
  intros [->|Hin] Hx; cbn [map_result].
  - rewrite Hx. eauto.
  - destruct (f y); [|eauto]. destruct (IH Hin Hx) as [e' ->]. eauto.
Qed.

End CleanMoreFacts.

Module ClassifierMoreFacts.
Import Py StateExn Classifier Spec DictFacts PredictFacts InitFacts BatchFacts StripFacts CleanFacts.

Section WithRuntime.

Variables Model Tokenizer : Type.
Variable rt : Runtime Model Tokenizer.

Lemma load_model_success (self : ToxicClassifier Model Tokenizer)
    (text : str) (m0 m1 m2 : Model) :
  path_exists rt (model_json_path (model_path self)) = true ->
  path_exists rt (weights_path (model_path self)) = true ->
  read_file rt (model_json_path (model_path self)) = Ok text ->
  model_from_json rt text = Ok (Some m0) ->
  load_weights rt m0 (weights_path (model_path self)) = Ok m1 ->
  compile rt m1 = Ok m2 ->
  _load_model rt self = (Ok tt, set_model (Some m2) self).
Proof.
  unfold model_json_path, weights_path. intros Hj Hw Hr Hm Hl Hc.
  unfold _load_model, _load_model_body, call_on_model. run.
  rewrite Hj, Hw. cbn [negb]. rewrite Hr, Hm. cbn [model set_model].
  rewrite Hl. cbn [model set_model]. now rewrite Hc.
Qed.

Lemma load_tokenizer_success (self : ToxicClassifier Model Tokenizer)
    (handle : str) (t : option Tokenizer) :
  path_exists rt (tokenizer_path (model_path self)) = true ->
  read_file rt (tokenizer_path (model_path self)) = Ok handle ->
  pickle_load rt handle = Ok t ->
  _load_tokenizer rt self = (Ok tt, set_tokenizer t self).
Proof.
  unfold tokenizer_path. intros Hp Hr Hl.
  unfold _load_tokenizer, _load_tokenizer_body. run. now rewrite Hp, Hr, Hl.
Qed.

Lemma is_blank_lower (s : str) : is_blank (PyStr (lower s)) = is_blank (PyStr s).
Proof.
  unfold is_blank. cbn [truthy]. rewrite strip_lower.
  unfold lower. destruct s as [|c t]; [reflexivity|]. cbn [map negb].
  now destruct (strip (c :: t)).
Qed.

Lemma is_blank_strip (s : str) : is_blank (PyStr (strip s)) = is_blank (PyStr s).
Proof.
  unfold is_blank. cbn [truthy]. rewrite strip_idempotent.
  destruct (strip s) as [|c t] eqn:E; cbn [negb].
  - now destruct s.
  - destruct s as [|c' t']; [discriminate E | reflexivity].
Qed.

Lemma preprocess_text_lower (self : ToxicClassifier Model Tokenizer) (s : str) :
  preprocess_text rt self (PyStr (lower s)) = preprocess_text rt self (PyStr s).
Proof.
  unfold preprocess_text. cbn [isinstance_str py_str].
  now rewrite (lower_lowered _ (lowered_lower s)).
Qed.

Lemma preprocess_text_strip (self : ToxicClassifier Model Tokenizer) (s : str) :
  preprocess_text rt self (PyStr (strip s)) = preprocess_text rt self (PyStr s).
Proof.
  unfold preprocess_text. cbn [isinstance_str py_str].
  now rewrite <- strip_lower, strip_idempotent.
Qed.

(** [predict] looks at its text through [is_blank] and [preprocess_text]. *)
Lemma predict_ext (self : ToxicClassifier Model Tokenizer) (u v : pyval) (w : World) :
  is_blank u = is_blank v ->
  preprocess_text rt self u = preprocess_text rt self v ->
  predict rt self u w = predict rt self v w.
Proof.
  intros Hb Hp. unfold predict, predict_body. run. now rewrite Hb, Hp.
Qed.

Lemma predict_passes (path : str) (m : option Model) (t : option Tokenizer)
    (text : pyval) (w : World) :
  let w' := snd (predict rt (instance path m t) text w) in
  forward_passes w <= forward_passes w' <= S (forward_passes w)
  /\ (is_blank text <> Ok false -> w' = w).
Proof.
  cbn zeta. rewrite predict_unfold.
  destruct (is_blank text) as [[|]|e]; cbn [snd]; try (split; [lia | reflexivity]).
  split; [|congruence].
  unfold predict_body, forward_pass. run. cbn [model categories instance].
  destruct (preprocess_text rt (instance path m t) text) as [x|e]; [|cbn; lia].
  destruct m as [m0|].
  - destruct (model_predict rt m0 x) as [p|e]; [|cbn; lia].
    destruct (fill_result p 0 CATEGORIES []); cbn; lia.
  - destruct (dict_random_spec _ _ rt CATEGORIES [] w NoDup_CATEGORIES (Forall_nil _))
      as [r [-> _]]. cbn. lia.
Qed.

Lemma batch_predict_app (self : ToxicClassifier Model Tokenizer)
    (a b : list pyval) (w : World) :
  batch_predict rt self (a ++ b) w =
  match batch_predict rt self a w with
  | (Ok ra, w1) =>
      match batch_predict rt self b w1 with
      | (Ok rb, w2) => (Ok (ra ++ rb), w2)
      | (Raise e, w2) => (Raise e, w2)
      end
  | (Raise e, w1) => (Raise e, w1)
  end.
Proof.
  revert w. induction a as [|x a IH]; intros w.
  - cbn [app]. rewrite batch_predict_nil.
    now destruct (batch_predict rt self b w) as [[rb|e] w2].
  - cbn [app]. rewrite !batch_predict_cons.
    destruct (predict rt self x w) as [[d|e] w1]; [|reflexivity].
    rewrite IH. destruct (batch_predict rt self a w1) as [[ra|e] w2]; [|reflexivity].
    now destruct (batch_predict rt self b w2) as [[rb|e] w3].
Qed.

Lemma is_blank_raises (v : pyval) :
  truthy v = true -> has_strip v = false -> is_blank v = Raise AttributeError.
Proof. unfold is_blank. intros ->. now destruct v. Qed.

Lemma is_blank_returns (v : pyval) :
  truthy v = false \/ has_strip v = true -> exists b, is_blank v = Ok b.
Proof.
  unfold is_blank. intros [-> | H]; [now exists true|].
  destruct (negb (truthy v)); [now exists true|].
  destruct v; try discriminate; eauto.
Qed.

Lemma predict_raises (self : ToxicClassifier Model Tokenizer) (v : pyval) (w : World) :
  truthy v = true -> has_strip v = false ->
  predict rt self v w = (Raise AttributeError, w).
Proof.
  intros Ht Hs. unfold predict. run. now rewrite (is_blank_raises v Ht Hs).
Qed.

End WithRuntime.
End ClassifierMoreFacts.

(* ================================================================== *)
(** * Further properties of the preprocessor *)
(* ================================================================== *)

Module PreprocessingExtras.
Import Py TextPreprocessing Spec PyFacts CleanFacts CleanSpec StripFacts CleanMoreFacts.

(** X1.  [basic_clean] is idempotent on every input. *)
Theorem basic_clean_idempotent (v : pyval) :
  basic_clean (PyStr (basic_clean v)) = basic_clean v.
Proof.
  rewrite (basic_clean_form (PyStr _)), (basic_clean_form v). cbn [py_str].
  now rewrite normal_tokens_fixed by apply normal_tokens.
Qed.

(** X2.  What [basic_clean] returns is in lower case, holds no match of
    the URL pattern, has its words one space apart and no whitespace at
    either end. *)
Theorem basic_clean_normal_form (v : pyval) :
  let r := basic_clean v in
  lower r = r
  /\ remove_url_matches r = r
  /\ collapse_whitespace r = r
  /\ strip r = r.
Proof.
  cbn zeta. rewrite basic_clean_form.
  pose proof (normal_tokens (py_str v)) as H.
  set (ts := split (remove_url_matches (lower (py_str v)))) in *.
  assert (Htok : Forall token ts) by now apply clean_tokens_are_tokens.
  repeat split.
  - apply lower_lowered, Forall_join; [repeat constructor|].
    revert H. apply Forall_impl. now intros t [_ [Hl _]].
  - apply sub_urls_join; [exact Htok|].
    revert H. apply Forall_impl. now intros t [_ [_ Hu]].
  - now apply collapse_join.
  - now apply strip_join.
Qed.

(** X3.  When the word tokenizer returns the whitespace-separated words
    or fails, [preprocess_text] with the default preprocessor and
    [basic_clean] return the same text. *)
Theorem preprocess_text_is_basic_clean (nltk : NLTK) (v : pyval) :
  words_only nltk -> preprocess_text nltk v None = basic_clean v.
Proof.
  intros Hw. unfold preprocess_text.
  rewrite (clean_text_form nltk Hw) by reflexivity.
  rewrite basic_clean_form.
  rewrite (filter_all _ _ _ kept_default).
  unfold normalised. cbn [lowercase remove_urls remove_special_chars _default_preprocessor].
  now rewrite split_collapse.
Qed.

Lemma preprocess_text_is_basic_clean_witness :
  preprocess_text nltk_without_punkt (PyStr (lit "  See WWW.Example.org  NOW ")) None
  = basic_clean (PyStr (lit "  See WWW.Example.org  NOW ")).
Proof.
  apply preprocess_text_is_basic_clean.
  intros text. right. exists LookupError. reflexivity.
Defined.

(** X4.  Whatever the configuration, the tokenizer and the stemmer do,
    [clean_text] returns a text without whitespace at either end. *)
Theorem clean_text_trimmed (nltk : NLTK) (self : TextPreprocessor) (v : pyval) :
  trimmed (clean_text nltk self v).
Proof.
  unfold trimmed. rewrite clean_text_stages. apply strip_idempotent.
Qed.

(** X5.  With a words-only tokenizer and no stemming, the words of the
    result are the words of the normalised text that pass the two
    filters, in their order: no word that is a piece of
    [string.punctuation] is left when punctuation is removed, no word
    whose lower case is a stop word is left when stop words are removed,
    and the words are one space apart. *)
Theorem clean_text_kept_words (nltk : NLTK) (self : TextPreprocessor) (v : pyval) :
  words_only nltk ->
  stemming self = false ->
  let r := clean_text nltk self v in
  split r = filter (kept self) (split (normalised self (py_str v)))
  /\ (remove_punctuation self = true ->
      Forall (fun w => substring_of w punctuation = false) (split r))
  /\ (remove_stopwords self = true ->
      Forall (fun w => str_in (lower w) (stop_words self) = false) (split r))
  /\ collapse_whitespace r = r.
Proof.
  intros Hw Hst. cbn zeta.
  pose proof (clean_text_words nltk Hw self v Hst) as Hsplit.
  split; [exact Hsplit|].
  assert (Hkept : Forall (fun w => kept self w = true) (split (clean_text nltk self v))).
  { rewrite Hsplit. apply Forall_forall. intros w Hin. now apply filter_In in Hin. }
  split; [|split].
  - intros Hp. revert Hkept. apply Forall_impl. intros w. unfold kept. rewrite Hp.
    intros H. apply andb_true_iff in H. destruct H as [_ H].
    now apply negb_true_iff in H.
  - intros Hs. revert Hkept. apply Forall_impl. intros w. unfold kept. rewrite Hs.
    destruct (stop_words self) as [|s0 l] eqn:E; [reflexivity|].
    cbn [andb]. intros H. apply andb_true_iff in H. destruct H as [H _].
    now apply negb_true_iff in H.
  - rewrite (clean_text_form nltk Hw) by exact Hst.
    apply collapse_join, Forall_filter, split_tokens.
Qed.

Lemma clean_text_kept_words_witness :
  let self := mkTextPreprocessor true true true true false false None
                [lit "the"; lit "a"] in
  split (clean_text nltk_without_punkt self (PyStr (lit "The cat , a DOG !!! ok.")))
  = [lit "cat"; lit "dog"; lit "!!!"; lit "ok."].
Proof.
  cbn zeta.
  destruct (clean_text_kept_words nltk_without_punkt
              (mkTextPreprocessor true true true true false false None
                 [lit "the"; lit "a"])
              (PyStr (lit "The cat , a DOG !!! ok."))) as [H _].
  - intros text. right. exists LookupError. reflexivity.
  - reflexivity.
  - rewrite H. reflexivity.
Defined.

(** X6.  With a words-only tokenizer, [clean_text] is idempotent under
    every configuration that keeps special characters and does not stem,
    whatever its other flags and its stop words. *)
Theorem clean_text_idempotent_without_stripping
    (nltk : NLTK) (self : TextPreprocessor) (v : pyval) :
  words_only nltk ->
  stemming self = false ->
  remove_special_chars self = false ->
  clean_text nltk self (PyStr (clean_text nltk self v)) = clean_text nltk self v.
Proof.
  intros Hw Hst Hsp.
  rewrite (clean_text_form nltk Hw self (PyStr _)) by exact Hst.
  rewrite (clean_text_form nltk Hw self v) by exact Hst.
  cbn [py_str]. unfold normalised. rewrite Hsp, !split_collapse.
  pose proof (flag_tokens_of (lowercase self) (remove_urls self) (py_str v)) as Hts.
  cbn zeta in Hts.
  set (ts := split (if remove_urls self
                    then remove_url_matches (if lowercase self then lower (py_str v) else py_str v)
                    else if lowercase self then lower (py_str v) else py_str v)) in *.
  pose proof (flag_tokens_fixed (lowercase self) (remove_urls self)
                (filter (kept self) ts) (Forall_filter _ _ _ _ Hts)) as Hfix.
  cbn zeta in Hfix. rewrite Hfix. now rewrite filter_idempotent.
Qed.

Lemma clean_text_idempotent_without_stripping_witness :
  let self := mkTextPreprocessor true true false true false false None [lit "the"] in
  let once := clean_text nltk_without_punkt self
                (PyStr (lit " The  END , see http://x.y/z ! ")) in
  clean_text nltk_without_punkt self (PyStr once) = once.
Proof.
  cbn zeta. apply clean_text_idempotent_without_stripping; try reflexivity.
  intros text. right. exists LookupError. reflexivity.
Defined.

(** X7.  With a words-only tokenizer and no stemming, a configuration
    that removes special characters returns only the letters a-z and A-Z
    and single spaces. *)
Theorem clean_text_letters_and_spaces
    (nltk : NLTK) (self : TextPreprocessor) (v : pyval) :
  words_only nltk ->
  stemming self = false ->
  remove_special_chars self = true ->
  Forall (fun c => is_ascii_letter c = true \/ c = " "%char)
    (clean_text nltk self v)
  /\ collapse_whitespace (clean_text nltk self v) = clean_text nltk self v.
Proof.
  intros Hw Hst Hsp.
  rewrite (clean_text_form nltk Hw) by exact Hst.
  split; [|apply collapse_join, Forall_filter, split_tokens].
  apply Forall_join; [repeat constructor; now right|].
  apply Forall_filter. unfold normalised. rewrite Hsp, split_collapse.
  set (y := if remove_urls self then _ else _).
  assert (Hy : Forall (fun c => is_ascii_letter c || isspace c = true)
                 (remove_non_letters y)).
  { unfold remove_non_letters. apply Forall_forall. intros c Hc.
    now apply filter_In in Hc. }
  pose proof (split_Forall _ _ Hy) as Hf.
  pose proof (split_tokens (remove_non_letters y)) as Ht.
  rewrite Forall_forall in *. intros w Hw'.
  specialize (Hf w Hw'). destruct (Ht w Hw') as [Hsp' _].
  unfold spaceless in Hsp'. rewrite Forall_forall in *.
  intros c Hc. left. specialize (Hf c Hc). rewrite (Hsp' c Hc) in Hf.
  now rewrite orb_false_r in Hf.
Qed.

Lemma clean_text_letters_and_spaces_witness :
  let r := clean_text nltk_without_punkt
             (mkTextPreprocessor true false true true true false None [])
             (PyStr (lit "R2-D2 said: 100% OK!!")) in
  Forall (fun c => is_ascii_letter c = true \/ c = " "%char) r
  /\ collapse_whitespace r = r.
Proof.
  cbn zeta. apply clean_text_letters_and_spaces; try reflexivity.
  intros text. right. exists LookupError. reflexivity.
Defined.

(** X8.  Stemming is all or nothing: when the stemmer raises on one of
    the tokens, [clean_text] returns what it returns with stemming
    switched off. *)
Theorem clean_text_stemming_failure
    (nltk : NLTK) (self : TextPreprocessor) (v : pyval) (t : str) (e : exn) :
  In t (filtered_tokens nltk self (py_str v)) ->
  stem nltk t = Raise e ->
  clean_text nltk self v = clean_text nltk (without_stemming self) v.
Proof.
  intros Hin Hraise. rewrite !clean_text_stages. cbn zeta.
  cbn [stemming without_stemming andb].
  replace (filtered_tokens nltk (without_stemming self) (py_str v))
    with (filtered_tokens nltk self (py_str v)) by reflexivity.
  destruct (stemming self && match stemmer self with Some _ => true | None => false end);
    [|reflexivity].
  destruct (map_result_raises _ _ _ _ _ _ Hin Hraise) as [e' ->]. reflexivity.
Qed.

Lemma clean_text_stemming_failure_witness :
  let self := mkTextPreprocessor false false true true false true (Some PorterStemmer) [] in
  clean_text nltk_broken_stemmer self (PyStr (lit "Running FAST"))
  = clean_text nltk_broken_stemmer (without_stemming self) (PyStr (lit "Running FAST")).
Proof.
  cbn zeta. apply (clean_text_stemming_failure _ _ _ (lit "fast") ValueError).
  - right. left. reflexivity.
  - reflexivity.
Defined.

End PreprocessingExtras.

Module FeatureFacts.
Import Py TextPreprocessing TextFeatures Spec PyFacts CleanFacts.

Lemma count_if_le (A : Type) (p : A -> bool) (l : list A) :
  count_if p l <= List.length l.
Proof. unfold count_if. apply filter_length_le. Qed.

Lemma count_if_sum (A : Type) (p q r : A -> bool) (l : list A) :
  (forall x, p x = true -> r x = true) ->
  (forall x, q x = true -> r x = true) ->
  (forall x, p x = true -> q x = false) ->
  count_if p l + count_if q l <= count_if r l.
Proof.
  intros Hp Hq Hpq. unfold count_if. induction l as [|x l IH]; [reflexivity|].
  cbn [filter]. specialize (Hp x). specialize (Hq x). specialize (Hpq x).
  destruct (p x), (q x), (r x); cbn [List.length];
    try lia; try (specialize (Hp eq_refl); discriminate);
    try (specialize (Hq eq_refl); discriminate);
    try (specialize (Hpq eq_refl); discriminate).
Qed.

Lemma punctuation_not_digit (c : ascii) : is_punctuation c = true -> isdigit_char c = false.
Proof.
  destruct c as [b0 b1 b2 b3 b4 b5 b6 b7];
    destruct b0, b1, b2, b3, b4, b5, b6, b7; cbv; congruence.
Qed.

Lemma exclamation_is_punctuation (c : ascii) :
  Ascii.eqb "!"%char c = true -> is_punctuation c = true.
Proof. intros H. apply Ascii.eqb_eq in H. now subst. Qed.

Lemma question_is_punctuation (c : ascii) :
  Ascii.eqb "?"%char c = true -> is_punctuation c = true.
Proof. intros H. apply Ascii.eqb_eq in H. now subst. Qed.

Lemma exclamation_not_question (c : ascii) :
  Ascii.eqb "!"%char c = true -> Ascii.eqb "?"%char c = false.
Proof. intros H. apply Ascii.eqb_eq in H. now subst. Qed.

(** Words need separators: [n] words take at least [2n - 1] characters. *)
Lemma split_length (s : str) :
  2 * List.length (split s)
  <= List.length s
     + match fields s with h :: _ => if nonempty h then 1 else 0 | [] => 0 end.
Proof.
  unfold split. induction s as [|c t IH]; [cbn; lia|].
  cbn [fields]. destruct (isspace c).
  - cbn [filter nonempty List.length].
    destruct (fields t) as [|h r]; [cbn in *; lia|].
    destruct (nonempty h); lia.
  - destruct (fields t) as [|h r]; [cbn in *; lia|].
    cbn [filter nonempty List.length] in *.
    destruct (nonempty h); cbn [List.length] in *; lia.
Qed.

Lemma ratio_unit (a b : nat) : a <= b -> 0 < b -> (0 <= ratio a b)%Q /\ (ratio a b <= 1)%Q.
Proof.
  intros Hab Hb. unfold ratio, Qle. cbn [Qnum Qden].
  rewrite !Z.mul_1_r, Z.mul_1_l.
  split; [lia|]. rewrite <- positive_nat_Z, Nat2Pos.id by lia. lia.
Qed.

(** *** Substrings survive a wider context *)

Lemma is_prefix_app (p t b : str) : is_prefix p t = true -> is_prefix p (t ++ b) = true.
Proof.
  revert t. induction p as [|x p IH]; intros [|y t]; cbn; try easy.
  intros H. apply andb_true_iff in H. destruct H as [-> H]. now apply IH.
Qed.

Lemma substring_of_cons (p s : str) :
  substring_of p s = is_prefix p s || match s with [] => false | _ :: s' => substring_of p s' end.
Proof. now destruct s. Qed.

Lemma substring_of_app_r (p t b : str) :
  substring_of p t = true -> substring_of p (t ++ b) = true.
Proof.
  induction t as [|y t IH]; rewrite substring_of_cons; intros H.
  - rewrite orb_false_r in H. rewrite substring_of_cons.
    now rewrite (is_prefix_app p [] b H).
  - apply orb_true_iff in H. rewrite substring_of_cons. cbn [app].
    destruct H as [H|H].
    + pose proof (is_prefix_app p (y :: t) b H) as H'. cbn [app] in H'. now rewrite H'.
    + rewrite (IH H). apply orb_true_r.
Qed.

Lemma substring_of_app_l (p a t : str) :
  substring_of p t = true -> substring_of p (a ++ t) = true.
Proof.
  intros H. induction a as [|y a IH]; [exact H|].
  cbn [app]. rewrite substring_of_cons, IH. apply orb_true_r.
Qed.

Lemma search_dollar_app_r (t b : str) :
  search_dollar_digits t = true -> search_dollar_digits (t ++ b) = true.
Proof.
  induction t as [|c t IH]; [discriminate|].
  cbn [search_dollar_digits app]. intros H. apply orb_true_iff in H.
  destruct H as [H|H].
  - apply andb_true_iff in H. destruct H as [-> H].
    destruct t as [|d t']; [discriminate|]. cbn [app]. now rewrite H.
  - rewrite (IH H). apply orb_true_r.
Qed.

Lemma search_dollar_app_l (a t : str) :
  search_dollar_digits t = true -> search_dollar_digits (a ++ t) = true.
Proof.
  intros H. induction a as [|y a IH]; [exact H|].
  cbn [app search_dollar_digits]. rewrite IH. apply orb_true_r.
Qed.

Lemma search_any_app (phrases : list str) (a t b : str) :
  search_any phrases t = true -> search_any phrases (a ++ t ++ b) = true.
Proof.
  unfold search_any. rewrite !existsb_exists. intros [p [Hin Hp]].
  exists p. split; [exact Hin|]. now apply substring_of_app_l, substring_of_app_r.
Qed.

Lemma spam_pattern_2_app (a t b : str) :
  spam_pattern_2 t = true -> spam_pattern_2 (a ++ t ++ b) = true.
Proof.
  unfold spam_pattern_2. intros H. apply orb_true_iff in H. apply orb_true_iff.
  destruct H as [H|H].
  - left. now apply search_dollar_app_l, search_dollar_app_r.
  - right. now apply search_any_app.
Qed.

Lemma spam_patterns_app (a t b : str) :
  existsb (fun pattern => pattern t) spam_patterns = true ->
  existsb (fun pattern => pattern (a ++ t ++ b)) spam_patterns = true.
Proof.
  rewrite !existsb_exists. intros [pattern [Hin Hp]]. exists pattern.
  split; [exact Hin|].
  destruct Hin as [<-|[<-|[<-|[]]]].
  - now apply search_any_app.
  - now apply spam_pattern_2_app.
  - now apply search_any_app.
Qed.

End FeatureFacts.

(* ================================================================== *)
(** * Text features and spam patterns *)
(* ================================================================== *)

Module FeatureExtras.
Import Py TextPreprocessing TextFeatures Spec PyFacts CleanFacts FeatureFacts CleanMoreFacts.

(** X9.  The counts of [extract_features] are consistent: the two
    lengths agree, n words take at least 2n - 1 characters, capitalised
    words are words, punctuation marks and digits are different
    characters, exclamation and question marks are punctuation, and the
    upper-case ratio is a proportion (0 for the empty text). *)
Theorem extract_features_consistent (v : pyval) :
  let f := extract_features v in
  length_ f = List.length (py_str v)
  /\ char_count f = length_ f
  /\ 2 * word_count f <= length_ f + 1
  /\ caps_words f <= word_count f
  /\ punctuation_count f + digit_count f <= length_ f
  /\ exclamation_count f + question_count f <= punctuation_count f
  /\ (0 <= uppercase_ratio f)%Q /\ (uppercase_ratio f <= 1)%Q
  /\ (length_ f = 0 -> uppercase_ratio f = 0%Q /\ word_count f = 0).
Proof.
  cbn zeta. unfold extract_features. rewrite py_str_arg.
  cbn [length_ char_count word_count caps_words punctuation_count digit_count
       exclamation_count question_count uppercase_ratio].
  set (text := py_str v).
  split; [reflexivity|]. split; [reflexivity|].
  split.
  { pose proof (split_length text) as H.
    destruct (fields text) as [|h r]; [lia|]. destruct (nonempty h); lia. }
  split; [apply count_if_le|].
  split.
  { pose proof (count_if_sum _ is_punctuation isdigit_char (fun _ => true) text
                  (fun _ _ => eq_refl) (fun _ _ => eq_refl) punctuation_not_digit) as H.
    unfold count_if in *. rewrite (filter_all _ (fun _ => true)) in H by reflexivity.
    exact H. }
  split.
  { apply count_if_sum.
    - exact exclamation_is_punctuation.
    - exact question_is_punctuation.
    - exact exclamation_not_question. }
  destruct text as [|c t] eqn:E.
  - cbn. repeat split; discriminate || reflexivity.
  - cbn [nonempty].
    destruct (ratio_unit (count_if isupper_char (c :: t)) (List.length (c :: t)))
      as [H0 H1]; [apply count_if_le | cbn; lia |].
    repeat split; try assumption; cbn [List.length]; intros; discriminate.
Qed.

(** X10.  [is_spam_pattern] looks at the lower-cased text only, and a
    text that matches still matches with anything written before and
    after it; the empty text does not match. *)
Theorem is_spam_pattern_context (t : str) :
  is_spam_pattern (PyStr (lower t)) = is_spam_pattern (PyStr t)
  /\ (is_spam_pattern (PyStr t) = true ->
      forall a b, is_spam_pattern (PyStr (a ++ t ++ b)) = true)
  /\ is_spam_pattern (PyStr []) = false.
Proof.
  split; [|split; [|reflexivity]].
  - unfold is_spam_pattern. cbn [isinstance_str py_str].
    now rewrite (lower_lowered _ (lowered_lower t)).
  - unfold is_spam_pattern. cbn [isinstance_str py_str]. intros H a b.
    unfold lower in *. rewrite !map_app. now apply spam_patterns_app.
Qed.

Lemma is_spam_pattern_context_witness :
  is_spam_pattern (PyStr (lit "Dear friend, ACT NOW and win $500 today")) = true.
Proof.
  apply (proj1 (proj2 (is_spam_pattern_context (lit "ACT NOW"))) eq_refl
           (lit "Dear friend, ") (lit " and win $500 today")).
Defined.

End FeatureExtras.

(* ================================================================== *)
(** * Further properties of the classifier *)
(* ================================================================== *)

Module ClassifierExtras.
Import Py StateExn Classifier Spec DictFacts PredictFacts InitFacts BatchFacts
  StripFacts ClassifierMoreFacts.

Section WithRuntime.

Variables Model Tokenizer : Type.
Variable rt : Runtime Model Tokenizer.

(** X11.  When the architecture and the weights are there and every step
    of loading them succeeds, the constructor installs the loaded and
    compiled model, not the fallback, whatever happens to the tokenizer;
    and when the tokenizer file is there and unpickles, the object it
    holds is installed. *)
Theorem init_installs_loaded
    (path text : str) (m0 m1 m2 : Model) :
  path_exists rt (model_json_path path) = true ->
  path_exists rt (weights_path path) = true ->
  read_file rt (model_json_path path) = Ok text ->
  model_from_json rt text = Ok (Some m0) ->
  load_weights rt m0 (weights_path path) = Ok m1 ->
  compile rt m1 = Ok m2 ->
  exists t,
    __init__ rt path = Ok (instance path (Some m2) t)
    /\ (forall handle t0,
          path_exists rt (tokenizer_path path) = true ->
          read_file rt (tokenizer_path path) = Ok handle ->
          pickle_load rt handle = Ok t0 ->
          t = t0).
Proof.
  intros Hj Hw Hr Hm Hl Hc.
  unfold __init__. unfold bind at 1.
  rewrite (load_model_success _ _ rt (fresh Model Tokenizer path) text m0 m1 m2)
    by assumption.
  destruct (load_tokenizer_installs _ _ rt (set_model (Some m2) (fresh Model Tokenizer path)))
    as [t [Ht _]].
  exists t. split; [now rewrite Ht|].
  intros handle t0 Hp Hrd Hpk.
  rewrite (load_tokenizer_success _ _ rt _ handle t0) in Ht by assumption.
  apply (f_equal (fun p => tokenizer (snd p))) in Ht. cbn in Ht. now symmetry.
Qed.

(** X12.  On the inference path [predict] returns the first six outputs
    of the first output row, paired with the categories in order, after
    exactly one forward pass and without drawing a random number. *)
Theorem predict_pairs_outputs
    (path : str) (m0 : Model) (t : option Tokenizer) (text : pyval) (w : World)
    (x : list (list Z)) (row : list Q) (rest : list (list Q)) :
  is_blank text = Ok false ->
  preprocess_text rt (instance path (Some m0) t) text = Ok x ->
  model_predict rt m0 x = Ok (row :: rest) ->
  6 <= List.length row ->
  predict rt (instance path (Some m0) t) text w
  = (Ok (combine CATEGORIES (firstn 6 row)),
     mkWorld (rng_pos w) (S (forward_passes w))).
Proof.
  intros Hb Hp Hm Hrow. rewrite predict_unfold, Hb.
  unfold predict_body, forward_pass. run. cbn [model categories instance].
  now rewrite Hp, Hm, (fill_result_six row rest Hrow).
Qed.

(** X13.  [predict] ignores the case of its text and the whitespace
    around it. *)
Theorem predict_ignores_case_and_margins
    (self : ToxicClassifier Model Tokenizer) (s : str) (w : World) :
  predict rt self (PyStr (lower s)) w = predict rt self (PyStr s) w
  /\ predict rt self (PyStr (strip s)) w = predict rt self (PyStr s) w.
Proof.
  split; apply predict_ext.
  - apply is_blank_lower.
  - apply preprocess_text_lower.
  - apply is_blank_strip.
  - apply preprocess_text_strip.
Qed.

(** X14.  A network that returns no row, or a first row of fewer than
    six outputs, gives the 0.1 mapping: [predict] never returns a mapping
    with some categories missing. *)
Theorem predict_short_output_is_fallback
    (path : str) (m0 : Model) (t : option Tokenizer) (text : pyval) (w : World)
    (x : list (list Z)) (p : list (list Q)) :
  is_blank text = Ok false ->
  preprocess_text rt (instance path (Some m0) t) text = Ok x ->
  model_predict rt m0 x = Ok p ->
  match p with [] => True | row :: _ => List.length row < 6 end ->
  predict rt (instance path (Some m0) t) text w
  = (Ok (uniform 0.1), mkWorld (rng_pos w) (S (forward_passes w))).
Proof.
  intros Hb Hp Hm Hshort. rewrite predict_unfold, Hb.
  unfold predict_body, forward_pass. run. cbn [model categories instance].
  rewrite Hp, Hm. destruct (fill_result_short p Hshort) as [e ->]. reflexivity.
Qed.

(** X15.  Without a tokenizer every text that is not blank gets the 0.1
    mapping, and the network is not run. *)
Theorem predict_without_tokenizer
    (path : str) (m : option Model) (text : pyval) (w : World) :
  is_blank text = Ok false ->
  predict rt (instance path m None) text w = (Ok (uniform 0.1), w).
Proof.
  intros Hb. rewrite predict_unfold, Hb. reflexivity.
Qed.

(** X16.  [batch_predict] on two lists one after the other is
    [batch_predict] on the first, then on the second from the world the
    first call left; an exception in either is the exception of the
    whole. *)
Theorem batch_predict_concat
    (self : ToxicClassifier Model Tokenizer) (a b : list pyval) (w : World) :
  batch_predict rt self (a ++ b) w =
  match batch_predict rt self a w with
  | (Ok ra, w1) =>
      match batch_predict rt self b w1 with
      | (Ok rb, w2) => (Ok (ra ++ rb), w2)
      | (Raise e, w2) => (Raise e, w2)
      end
  | (Raise e, w1) => (Raise e, w1)
  end.
Proof. apply batch_predict_app. Qed.

(** X17.  One element that is truthy and has no [strip] method, that is
    [True] or a number other than 0, makes [batch_predict] raise
    [AttributeError]: the results for the texts before it are lost and
    the texts after it are not looked at. *)
Theorem batch_predict_raises_without_strip
    (path : str) (m : option Model) (t : option Tokenizer)
    (ss : list str) (v : pyval) (rest : list pyval) (w : World) :
  truthy v = true ->
  has_strip v = false ->
  let self := instance path m t in
  batch_predict rt self (map PyStr ss ++ v :: rest) w
  = (Raise AttributeError, snd (batch_predict rt self (map PyStr ss) w)).
Proof.
  intros Ht Hs. cbn zeta. rewrite batch_predict_app.
  destruct (batch_predict_strings _ _ rt path m t ss w) as [rs [w' [-> _]]].
  rewrite batch_predict_cons, (predict_raises _ _ rt _ v w' Ht Hs). reflexivity.
Qed.

(** X18.  [batch_predict] runs the network at most once for each text,
    and not at all when every text is blank. *)
Theorem batch_predict_forward_passes
    (path : str) (m : option Model) (t : option Tokenizer)
    (ss : list str) (w : World) :
  let w' := snd (batch_predict rt (instance path m t) (map PyStr ss) w) in
  forward_passes w <= forward_passes w' <= forward_passes w + List.length ss
  /\ (Forall (fun s => strip s = []) ss -> w' = w).
Proof.
  cbn zeta. revert w. induction ss as [|s ss IH]; intros w.
  - rewrite batch_predict_nil. cbn. split; [lia | reflexivity].
  - cbn [map]. rewrite batch_predict_cons.
    pose proof (predict_passes _ _ rt path m t (PyStr s) w) as [Hp Hblank].
    cbn zeta in Hp, Hblank.
    destruct (predict_str_returns _ _ rt path m t s w) as [d [w1 Hd]].
    rewrite Hd in *. cbn [snd] in *.
    specialize (IH w1). destruct IH as [IH IHblank].
    destruct (batch_predict rt (instance path m t) (map PyStr ss) w1) as [[rs|e] w2];
      cbn [snd List.length] in *.
    + split; [lia|]. intros Hall. inversion Hall as [|? ? Hs Hss]; subst.
      rewrite (IHblank Hss). apply Hblank.
      rewrite (is_blank_true (PyStr s)); [discriminate|]. right. now exists s.
    + split; [lia|]. intros Hall. inversion Hall as [|? ? Hs Hss]; subst.
      rewrite (IHblank Hss). apply Hblank.
      rewrite (is_blank_true (PyStr s)); [discriminate|]. right. now exists s.
Qed.

(** X19.  Whatever the environment, [get_model_info] on a constructed
    classifier reports the categories, the vocabulary size and the
    sequence length of [config.py]; the number of layers is reported only
    together with the number of parameters, and the parameters are
    missing exactly when [count_params] raises. *)
Theorem get_model_info_after_init (path : str) :
  exists self m,
    __init__ rt path = Ok self
    /\ model self = Some m
    /\ let info := get_model_info rt self in
       info_categories info = Config.TOXICITY_CATEGORIES
       /\ info_max_features info = Config.MODEL_CONFIG_max_features
       /\ info_max_length info = Config.MODEL_CONFIG_max_length
       /\ (model_layers info <> None -> model_params info <> None)
       /\ (model_params info = None <-> exists e, count_params rt m = Raise e).
Proof.
  destruct (init_builds _ _ rt path) as [m [t [Hinit _]]].
  exists (instance path (Some m) t), m. split; [exact Hinit|]. split; [reflexivity|].
  cbn zeta. unfold get_model_info. cbn [model instance categories max_features max_len].
  destruct (count_params rt m) as [params|e].
  - destruct (layers_len rt m) as [layers|e];
      cbn [info_categories info_max_features info_max_length model_layers model_params];
      repeat split; try discriminate; try congruence;
      intros [e' He']; discriminate.
  - cbn [info_categories info_max_features info_max_length model_layers model_params].
    repeat split; try congruence. now exists e.
Qed.

(** The loop of the module-level [predict]. *)
Lemma collect_spec (format_3f : Q -> str) (items : list (str * Q))
    (pl : list str) (sl : list Q) :
  Legacy.collect format_3f items pl sl
  = (pl ++ map (fun kv => fst kv ++ lit ": " ++ format_3f (snd kv)) items,
     sl ++ map snd items).
Proof.
  revert pl sl. induction items as [|[c s] items IH]; intros pl sl; cbn [Legacy.collect map].
  - now rewrite !app_nil_r.
  - rewrite IH. cbn [fst snd]. now rewrite <- !app_assoc.
Qed.

(** X20.  The module-level [predict] never raises on a string: it
    returns three lists of six entries, the categories in their fixed
    order, the scores [ToxicClassifier.predict] gives with a freshly
    built classifier, and one formatted line for each. *)
Theorem legacy_predict_returns (format_3f : Q -> str) (s : str) (w : World) :
  exists self d w',
    __init__ rt (lit "resources/") = Ok self
    /\ predict rt self (PyStr s) w = (Ok d, w')
    /\ Legacy.predict rt format_3f (PyStr s) w
       = (Ok (map (fun kv => fst kv ++ lit ": " ++ format_3f (snd kv)) d,
              values d, CATEGORIES), w')
    /\ List.length d = 6.
Proof.
  destruct (init_builds _ _ rt (lit "resources/")) as [m [t [Hinit _]]].
  destruct (predict_str_returns _ _ rt (lit "resources/") (Some m) t s w) as [d [w' Hd]].
  exists (instance (lit "resources/") (Some m) t), d, w'.
  split; [exact Hinit|]. split; [exact Hd|].
  pose proof (predict_keys _ _ rt _ _ _ _ _ _ _ Hd) as Hk.
  split.
  - unfold Legacy.predict. rewrite Hinit. run. rewrite Hd, collect_spec, Hk. reflexivity.
  - unfold keys in Hk. rewrite <- (length_map fst), Hk. reflexivity.
Qed.

(** X25.  Among the values [None], [bool], [int], [str] and [bytes],
    [predict] raises exactly on those that are truthy and have no [strip]
    method, [True] and the numbers other than 0: it raises
    [AttributeError] and leaves the state as it was.  On every other
    value, a [bytes] object included, it returns a mapping with the six
    categories. *)
Theorem predict_raises_exactly_without_strip
    (path : str) (m : option Model) (t : option Tokenizer) (v : pyval) (w : World) :
  (truthy v = true /\ has_strip v = false ->
   predict rt (instance path m t) v w = (Raise AttributeError, w))
  /\ (truthy v = false \/ has_strip v = true ->
      exists d w', predict rt (instance path m t) v w = (Ok d, w')
                   /\ keys d = CATEGORIES).
Proof.
  split.
  - intros [Ht Hs]. now apply predict_raises.
  - intros H. destruct (is_blank_returns v H) as [b Hb].
    assert (Hret : exists d w', predict rt (instance path m t) v w = (Ok d, w')).
    { rewrite predict_unfold, Hb. destruct b; [eauto|].
      destruct (predict_body rt (instance path m t) v w) as [[d|e] w']; eauto. }
    destruct Hret as [d [w' Hd]]. exists d, w'. split; [exact Hd|].
    now apply (predict_keys _ _ rt path m t v w w' d).
Qed.

End WithRuntime.
End ClassifierExtras.

(* ================================================================== *)
(** * The further properties on concrete installations *)
(* ================================================================== *)

Module ClassifierExtrasExamples.
Import Py StateExn Classifier Spec Demo ClassifierExtras.

(** All three artifacts in place: the loaded network and the unpickled
    tokenizer are installed. *)
Lemma init_installs_loaded_witness :
  exists t,
    __init__ (runtime full_resources) (lit "resources/")
    = Ok (instance (lit "resources/") (Some Trained) t)
    /\ t = Some Fitted.
Proof.
  destruct (init_installs_loaded Net Vocab (runtime full_resources)
              (lit "resources/") (lit "{}") Trained Trained Trained)
    as [t [H1 H2]]; try reflexivity.
  exists t. split; [exact H1|].
  apply (H2 (lit "tokenizer") (Some Fitted)); reflexivity.
Defined.

Lemma predict_pairs_outputs_witness :
  predict (runtime full_resources)
    (instance (lit "resources/") (Some Trained) (Some Fitted))
    (PyStr (lit "great post")) start
  = (Ok (combine CATEGORIES (firstn 6 (repeat 0.75%Q 6))), mkWorld 0 1).
Proof.
  apply (predict_pairs_outputs Net Vocab (runtime full_resources)
           (lit "resources/") Trained (Some Fitted) (PyStr (lit "great post")) start
           [pad_sequence 100 [5; 4]%Z] (repeat 0.75%Q 6) []);
    [reflexivity | reflexivity | reflexivity | cbn; lia].
Defined.

(** A network with three output units. *)
Lemma predict_short_output_is_fallback_witness :
  predict Narrow.runtime (instance (lit "resources/") (Some tt) (Some tt))
    (PyStr (lit "great post")) start
  = (Ok (uniform 0.1), mkWorld 0 1).
Proof.
  apply (predict_short_output_is_fallback unit unit Narrow.runtime
           (lit "resources/") tt (Some tt) (PyStr (lit "great post")) start
           [pad_sequence 100 [1]%Z] [[0.5%Q; 0.5%Q; 0.5%Q]]);
    [reflexivity | reflexivity | reflexivity | cbn; lia].
Defined.

Lemma predict_without_tokenizer_witness :
  predict (runtime none_pickled) (instance (lit "resources/") (Some Trained) None)
    (PyStr (lit "hello")) start
  = (Ok (uniform 0.1), start).
Proof.
  apply (predict_without_tokenizer Net Vocab (runtime none_pickled)
           (lit "resources/") (Some Trained) (PyStr (lit "hello")) start).
  reflexivity.
Defined.

(** A number among the texts. *)
Lemma batch_predict_raises_without_strip_witness :
  batch_predict (runtime full_resources)
    (instance (lit "resources/") (Some Trained) (Some Fitted))
    [PyStr (lit "great post"); PyInt 5; PyStr (lit "you idiot")] start
  = (Raise AttributeError, mkWorld 0 1).
Proof.
  apply (batch_predict_raises_without_strip Net Vocab (runtime full_resources)
           (lit "resources/") (Some Trained) (Some Fitted)
           [lit "great post"] (PyInt 5) [PyStr (lit "you idiot")] start);
    reflexivity.
Defined.

End ClassifierExtrasExamples.

Module ConfigExtras.
Import Py Config DictFacts.

(** X21.  [is_feature_enabled] answers [True] for exactly three names,
    the examples, the statistics and the export; for every other name,
    known or not, it answers [False] and raises nothing. *)
Theorem is_feature_enabled_exactly (feature_name : str) :
  is_feature_enabled feature_name = true
  <-> In feature_name
        [lit "enable_examples"; lit "enable_statistics"; lit "enable_export"].
Proof.
  unfold is_feature_enabled, FEATURE_FLAGS. cbn [dict_get].
  repeat match goal with
         | |- context [str_eqb ?k feature_name] =>
             destruct (str_eqb_spec k feature_name) as [<-|?]
         end;
    (split; [intros H; try discriminate H; cbn; tauto
            | intros H; cbn in H;
              repeat (destruct H as [H|H]; [try discriminate H; try congruence|]);
              try contradiction; try reflexivity]).
Qed.

End ConfigExtras.

Module WordCloudFacts.
Import Py Visualization DictFacts.

Lemma freq_get_set (d : freq) (k k' : str) (v default : nat) :
  freq_get (freq_set d k v) k' default
  = if str_eqb k k' then v else freq_get d k' default.
Proof.
  induction d as [|[k0 v0] d IH]; cbn [freq_set freq_get]; [reflexivity|].
  destruct (str_eqb_spec k0 k) as [->|Hk]; cbn [freq_get].
  - now destruct (str_eqb k k').
  - rewrite IH. destruct (str_eqb_spec k0 k') as [->|Hk']; [|reflexivity].
    destruct (str_eqb_spec k k'); [congruence | reflexivity].
Qed.

Lemma freq_set_new (d : freq) (k : str) (v : nat) :
  ~ In k (map fst d) -> freq_set d k v = d ++ [(k, v)].
Proof.
  induction d as [|[k0 v0] d IH]; cbn; intros Hk; [reflexivity|].
  destruct (str_eqb_spec k0 k) as [->|_]; [tauto|]. now rewrite IH by tauto.
Qed.

Lemma keys_freq_set_old (d : freq) (k : str) (v : nat) :
  In k (map fst d) -> map fst (freq_set d k v) = map fst d.
Proof.
  induction d as [|[k0 v0] d IH]; cbn; [tauto|].
  destruct (str_eqb_spec k0 k) as [->|Hk]; [reflexivity|].
  intros [H|H]; [congruence|]. cbn. now rewrite IH.
Qed.

Lemma freq_get_In (d : freq) (k : str) (n default : nat) :
  NoDup (map fst d) -> In (k, n) d -> freq_get d k default = n.
Proof.
  induction d as [|[k0 v0] d IH]; [intros _ []|].
  cbn. intros Hnd [H|H].
  - injection H as -> ->. now destruct (str_eqb_spec k k).
  - inversion Hnd as [|? ? Hk0 Hnd']; subst.
    destruct (str_eqb_spec k0 k) as [->|_]; [|now apply IH].
    exfalso. apply Hk0. apply in_map_iff. now exists (k, n).
Qed.

(** What the loop adds for one word. *)
Lemma counted_cons (w : str) (ws : list str) :
  filter (fun w => Nat.ltb 2 (List.length w)) (map (strip_chars stripped_chars) (w :: ws))
  = (if Nat.ltb 2 (List.length (strip_chars stripped_chars w))
     then [strip_chars stripped_chars w] else [])
    ++ filter (fun w => Nat.ltb 2 (List.length w)) (map (strip_chars stripped_chars) ws).
Proof. cbn [map filter]. now destruct (Nat.ltb _ _). Qed.

Lemma occurrences_cons (k w : str) (l : list str) :
  occurrences k (w :: l) = (if str_eqb k w then 1 else 0) + occurrences k l.
Proof. unfold occurrences. cbn [filter]. now destruct (str_eqb k w). Qed.

Lemma str_eqb_sym (a b : str) : str_eqb a b = str_eqb b a.
Proof. destruct (str_eqb_spec a b), (str_eqb_spec b a); congruence. Qed.

(** The table after the loop: one entry for each counted word, holding
    the number of its occurrences. *)
Lemma count_words_spec (ws : list str) :
  forall d,
    NoDup (map fst d) ->
    let cw := filter (fun w => Nat.ltb 2 (List.length w))
                (map (strip_chars stripped_chars) ws) in
    let d' := fold_left count_word ws d in
    NoDup (map fst d')
    /\ (forall k, freq_get d' k 0 = freq_get d k 0 + occurrences k cw)
    /\ (forall k, In k (map fst d') <-> In k (map fst d) \/ In k cw).
Proof.
  induction ws as [|w ws IH]; intros d Hnd; cbn zeta.
  - cbn. split; [exact Hnd|]. split; [intros; lia | tauto].
  - rewrite counted_cons. cbn [fold_left].
    assert (Hcw : count_word d w
                  = if Nat.ltb 2 (List.length (strip_chars stripped_chars w))
                    then freq_set d (strip_chars stripped_chars w)
                           (freq_get d (strip_chars stripped_chars w) 0 + 1)
                    else d) by reflexivity.
    rewrite Hcw. clear Hcw.
    set (w' := strip_chars stripped_chars w).
    destruct (Nat.ltb 2 (List.length w')) eqn:Hlen; cbn [app].
    + assert (Hnd1 : NoDup (map fst (freq_set d w' (freq_get d w' 0 + 1)))).
      { destruct (in_dec (list_eq_dec ascii_dec) w' (map fst d)) as [Hin|Hin].
        - now rewrite keys_freq_set_old.
        - rewrite freq_set_new, map_app by exact Hin. cbn.
          apply NoDup_app; [exact Hnd | repeat constructor; intros [] |].
          intros x Hx [<-|[]]. contradiction. }
      destruct (IH _ Hnd1) as [H1 [H2 H3]]. cbn zeta in *.
      split; [exact H1|]. split.
      * intros k. rewrite H2, freq_get_set, occurrences_cons, (str_eqb_sym k w').
        destruct (str_eqb_spec w' k) as [->|_]; lia.
      * intros k. rewrite H3.
        destruct (in_dec (list_eq_dec ascii_dec) w' (map fst d)) as [Hin|Hin].
        -- rewrite keys_freq_set_old by exact Hin. cbn [In].
           split; [tauto|]. intros [H|[<-|H]]; tauto.
        -- rewrite freq_set_new, map_app, in_app_iff by exact Hin. cbn [map fst In].
           tauto.
    + destruct (IH _ Hnd) as [H1 [H2 H3]]. cbn zeta in *.
      split; [exact H1|]. split; [exact H2 | exact H3].
Qed.

(** *** Sorting *)

Lemma insert_by_count_perm (x : str * nat) (l : list (str * nat)) :
  Permutation (insert_by_count x l) (x :: l).
Proof.
  induction l as [|y l IH]; cbn [insert_by_count]; [reflexivity|].
  destruct (Nat.ltb (snd x) (snd y)); [|reflexivity].
  rewrite IH. apply perm_swap.
Qed.

Lemma sorted_by_count_perm (l : list (str * nat)) : Permutation (sorted_by_count l) l.
Proof.
  unfold sorted_by_count. induction l as [|x l IH]; [reflexivity|].
  cbn [fold_right]. rewrite insert_by_count_perm. now constructor.
Qed.

Lemma insert_by_count_sorted (x : str * nat) (l : list (str * nat)) :
  StronglySorted (fun a b => snd b <= snd a) l ->
  StronglySorted (fun a b => snd b <= snd a) (insert_by_count x l).
Proof.
  induction 1 as [|y l Hl IH Hy]; cbn [insert_by_count]; [repeat constructor|].
  destruct (Nat.ltb (snd x) (snd y)) eqn:E.
  - apply Nat.ltb_lt in E. constructor; [exact IH|].
    apply Forall_forall. intros z Hz.
    apply (Permutation_in _ (insert_by_count_perm x l)) in Hz.
    destruct Hz as [<-|Hz]; [lia|]. rewrite Forall_forall in Hy. now apply Hy.
  - apply Nat.ltb_ge in E. constructor; [now constructor|].
    constructor; [exact E|]. rewrite Forall_forall in *. intros z Hz.
    specialize (Hy z Hz). cbn beta in *. lia.
Qed.

Lemma sorted_by_count_sorted (l : list (str * nat)) :
  StronglySorted (fun a b => snd b <= snd a) (sorted_by_count l).
Proof.
  unfold sorted_by_count. induction l as [|x l IH]; [constructor|].
  cbn [fold_right]. now apply insert_by_count_sorted.
Qed.

Lemma sorted_app (l1 l2 : list (str * nat)) :
  StronglySorted (fun a b => snd b <= snd a) (l1 ++ l2) ->
  StronglySorted (fun a b => snd b <= snd a) l1
  /\ (forall a b, In a l1 -> In b l2 -> snd b <= snd a).
Proof.
  induction l1 as [|x l1 IH]; cbn [app]; intros H.
  - split; [constructor | intros a b []].
  - inversion H as [|? ? Hs Hx]; subst. destruct (IH Hs) as [H1 H2].
    rewrite Forall_forall in Hx. split.
    + constructor; [exact H1|]. apply Forall_forall. intros z Hz.
      apply Hx, in_or_app. now left.
    + intros a b [<-|Ha] Hb; [apply Hx, in_or_app; now right | now apply H2].
Qed.

Lemma sorted_decreasing (l : list (str * nat)) :
  StronglySorted (fun a b => snd b <= snd a) l -> decreasing l.
Proof.
  unfold decreasing. induction 1 as [|x l Hl IH Hx]; intros i j a b Hij Ha Hb.
  - now destruct i.
  - destruct j as [|j]; [lia|]. cbn [nth_error] in Hb.
    destruct i as [|i]; cbn [nth_error] in Ha.
    + injection Ha as <-. rewrite Forall_forall in Hx.
      apply Hx. now apply nth_error_In with j.
    + apply (IH i j); [lia | assumption | assumption].
Qed.

(** *** Slicing *)

Lemma slice_to_firstn (A : Type) (l : list A) (k : Z) :
  exists n, slice_to l k = firstn n l /\ ((0 <= k)%Z -> n = Z.to_nat k).
Proof.
  unfold slice_to. destruct (0 <=? k)%Z eqn:E.
  - exists (Z.to_nat k). now split.
  - exists (List.length l - Z.to_nat (- k)). split; [reflexivity|].
    apply Z.leb_gt in E. lia.
Qed.

Lemma dict_of_items_from (items : list (str * nat)) :
  forall d,
    NoDup (map fst d ++ map fst items) ->
    fold_left (fun d kv => freq_set d (fst kv) (snd kv)) items d = d ++ items.
Proof.
  induction items as [|[k v] items IH]; intros d H; cbn [fold_left fst snd].
  - now rewrite app_nil_r.
  - cbn [map fst] in H. destruct (NoDup_step _ _ _ H) as [Hk Hnd].
    rewrite freq_set_new by exact Hk. rewrite IH.
    + now rewrite <- app_assoc.
    + rewrite map_app. exact Hnd.
Qed.

Lemma dict_of_items_id (items : list (str * nat)) :
  NoDup (map fst items) -> dict_of_items items = items.
Proof. intros H. unfold dict_of_items. now rewrite dict_of_items_from. Qed.

Lemma occurrences_pos (w : str) (l : list str) : In w l -> 1 <= occurrences w l.
Proof.
  induction l as [|x l IH]; [intros []|]. rewrite occurrences_cons.
  intros [->|H].
  - destruct (str_eqb_spec w w); [lia | congruence].
  - specialize (IH H). lia.
Qed.

Lemma counted_words_long (text w : str) :
  In w (counted_words text) -> 2 < List.length w.
Proof.
  unfold counted_words. rewrite filter_In. intros [_ H]. now apply Nat.ltb_lt.
Qed.

(** The items behind the result: all counted words with their counts,
    most frequent first, of which the result is a prefix. *)
Lemma word_cloud_items (text : pyval) (max_words : Z) :
  exists (items : list (str * nat)) (n : nat),
    create_word_cloud_data text max_words = firstn n items
    /\ ((0 <= max_words)%Z -> n = Z.to_nat max_words)
    /\ StronglySorted (fun a b => snd b <= snd a) items
    /\ NoDup (map fst items)
    /\ (forall w c, In (w, c) items -> c = occurrences w (counted_words (py_str text)))
    /\ (forall w, In w (map fst items) <-> In w (counted_words (py_str text))).
Proof.
  unfold create_word_cloud_data.
  replace (py_str (if isinstance_str text then text else PyStr (py_str text)))
    with (py_str text) by now destruct text.
  set (ws := split (lower (py_str text))).
  destruct (count_words_spec ws [] (NoDup_nil _)) as [Hnd [Hget Hin]].
  cbn zeta in *.
  change (filter (fun w : list ascii => Nat.ltb 2 (List.length w))
            (map (strip_chars stripped_chars) ws))
    with (counted_words (py_str text)) in Hget, Hin.
  cbn [freq_get map] in Hget, Hin.
  set (wf := fold_left count_word ws []) in *.
  pose proof (sorted_by_count_perm wf) as Hperm.
  destruct (slice_to_firstn _ (sorted_by_count wf) max_words) as [n [Hn Hk]].
  assert (Hnd' : NoDup (map fst (sorted_by_count wf))).
  { apply Permutation_NoDup with (map fst wf); [|exact Hnd].
    apply Permutation_map. now symmetry. }
  exists (sorted_by_count wf), n. rewrite Hn.
  split.
  { apply dict_of_items_id.
    rewrite <- (firstn_skipn n (sorted_by_count wf)), map_app in Hnd'.
    now apply NoDup_app_remove_r in Hnd'. }
  split; [exact Hk|]. split; [apply sorted_by_count_sorted|].
  split; [exact Hnd'|]. split.
  - intros w c Hw. apply (Permutation_in _ Hperm) in Hw.
    rewrite <- (freq_get_In wf w c 0 Hnd Hw). now rewrite Hget.
  - intros w. split; intros H.
    + assert (H' : In w (map fst wf)).
      { eapply Permutation_in; [|exact H]. now apply Permutation_map. }
      apply Hin in H'. destruct H' as [[]|H']. exact H'.
    + assert (H' : In w (map fst wf)) by (apply Hin; now right).
      eapply Permutation_in; [|exact H']. apply Permutation_map. now symmetry.
Qed.

Lemma In_firstn (A : Type) (n : nat) (l : list A) (x : A) :
  In x (firstn n l) -> In x l.
Proof.
  intros H. rewrite <- (firstn_skipn n l). apply in_or_app. now left.
Qed.

End WordCloudFacts.

Module WordCloudExtras.
Import Py Visualization WordCloudFacts.

(** X22.  The dictionary returned by [create_word_cloud_data] holds each
    word once, and what it holds is a count: every entry pairs a word
    that occurs in the lower-cased text, stripped of the punctuation
    around it and longer than two characters, with the number of its
    occurrences among the words so prepared, which is at least one.
    This holds for every argument (a non-string is converted with
    [str]) and every limit. *)
Theorem word_cloud_entries_are_counts (text : pyval) (max_words : Z) :
  let d := create_word_cloud_data text max_words in
  let words := counted_words (py_str text) in
  NoDup (map fst d)
  /\ forall w c, In (w, c) d ->
       In w words /\ c = occurrences w words /\ 1 <= c /\ 2 < List.length w.
Proof.
  cbn zeta.
  destruct (word_cloud_items text max_words) as (items & n & -> & _ & _ & Hnd & Hc & Hin).
  split.
  - rewrite <- (firstn_skipn n items), map_app in Hnd.
    now apply NoDup_app_remove_r in Hnd.
  - intros w c Hw. apply In_firstn in Hw.
    assert (Hw' : In w (counted_words (py_str text))).
    { apply Hin. apply in_map_iff. now exists (w, c). }
    split; [exact Hw'|]. split; [now apply Hc|].
    split; [rewrite (Hc w c Hw); now apply occurrences_pos
           | now apply counted_words_long with (py_str text)].
Qed.

(** X23.  The result lists the most frequent words first and respects
    the limit: its counts are in decreasing order, it has at most
    [max_words] entries when the limit is not negative, and a counted
    word that was left out occurs no more often than any word that was
    kept. *)
Theorem word_cloud_keeps_most_frequent (text : pyval) (max_words : Z) :
  let d := create_word_cloud_data text max_words in
  let words := counted_words (py_str text) in
  decreasing d
  /\ ((0 <= max_words)%Z -> List.length d <= Z.to_nat max_words)
  /\ forall w, In w words -> ~ In w (map fst d) ->
       forall w' c', In (w', c') d -> occurrences w words <= c'.
Proof.
  cbn zeta.
  destruct (word_cloud_items text max_words)
    as (items & n & -> & Hk & Hs & Hnd & Hc & Hin).
  rewrite <- (firstn_skipn n items) in Hs.
  destruct (sorted_app _ _ Hs) as [Hs1 Hs2].
  split; [now apply sorted_decreasing|]. split.
  - intros H. rewrite <- (Hk H). apply firstn_le_length.
  - intros w Hw Hout w' c' Hw'.
    apply Hin, in_map_iff in Hw. destruct Hw as [[w0 c] [Hfst Hw]].
    cbn in Hfst. subst w0. rewrite <- (Hc w c Hw).
    rewrite <- (firstn_skipn n items) in Hw. apply in_app_or in Hw.
    destruct Hw as [Hw|Hw].
    + exfalso. apply Hout. apply in_map_iff. now exists (w, c).
    + exact (Hs2 _ _ Hw' Hw).
Qed.

(** X24.  When the limit is at least the number of distinct counted
    words nothing is cut: every word of the text that is longer than
    two characters after stripping is a key of the result, with its
    number of occurrences. *)
Theorem word_cloud_complete_within_limit (text : pyval) (max_words : Z) :
  let words := counted_words (py_str text) in
  (Z.of_nat (List.length (nodup (list_eq_dec ascii_dec) words)) <= max_words)%Z ->
  forall w, In w words ->
    In (w, occurrences w words) (create_word_cloud_data text max_words).
Proof.
  cbn zeta. intros Hlen w Hw.
  destruct (word_cloud_items text max_words)
    as (items & n & -> & Hk & _ & Hnd & Hc & Hin).
  assert (Hperm : Permutation (map fst items)
                    (nodup (list_eq_dec ascii_dec) (counted_words (py_str text)))).
  { apply NoDup_Permutation; [exact Hnd | apply NoDup_nodup |].
    intros x. now rewrite nodup_In. }
  apply Permutation_length in Hperm. rewrite length_map in Hperm.
  assert (H0 : (0 <= max_words)%Z).
  { etransitivity; [apply Nat2Z.is_nonneg | exact Hlen]. }
  rewrite (Hk H0).
  assert (Hle : List.length items <= Z.to_nat max_words).
  { rewrite Hperm. apply Nat2Z.inj_le. rewrite Z2Nat.id; [exact Hlen | exact H0]. }
  rewrite (firstn_all2 items Hle).
  apply Hin, in_map_iff in Hw. destruct Hw as [[w0 c] [Hfst Hw]].
  cbn in Hfst. subst w0. now rewrite <- (Hc w c Hw).
Qed.

(** A text of three distinct words within a limit of five. *)
Lemma word_cloud_complete_within_limit_witness :
  (Z.of_nat (List.length (nodup (list_eq_dec ascii_dec)
                            (counted_words (lit "The cat, the dog; the END!")))) <= 5)%Z
  /\ In (lit "the", 3)
        (create_word_cloud_data (PyStr (lit "The cat, the dog; the END!")) 5).
Proof.
  split; [vm_compute; discriminate|].
  apply (word_cloud_complete_within_limit (PyStr (lit "The cat, the dog; the END!")) 5);
    [vm_compute; discriminate | vm_compute; tauto].
Defined.

End WordCloudExtras.
